(** * iwd-tui: the device/network state manager of [scripts/iwd.py]

    A shallow embedding of [NetworkManager] (command execution, parsing of
    the [iwctl] tables, the device and network store) and of
    [IwdTUI.update_status], with the properties of the specification stated
    and settled against it.

    Text is modelled as [string]; a character stands for a code point
    below 256, which is where every character tested by the program
    ("-", ">", the letters of "on", "connected", "PSK", "802.1X", "dBm",
    the decimal digits) lives. *)

From Stdlib Require Import ZArith List String Ascii Bool Lia.
Import ListNotations.

Local Open Scope string_scope.
Local Open Scope bool_scope.

(** ** The Python [str] operations the program uses *)

Module PyStr.

(** The line feed, ["\n"]. *)
Definition nl : string := String (ascii_of_nat 10) "".

(** [str.isspace] on one character: TAB..CR, FS..US, SPACE, NEL, NBSP. *)
Definition isspace (c : ascii) : bool :=
  let n := nat_of_ascii c in
  (((9 <=? n) && (n <=? 13)) || ((28 <=? n) && (n <=? 32))
   || (n =? 133) || (n =? 160))%nat.

Fixpoint lstrip (s : string) : string :=
  match s with
  | "" => ""
  | String c s' => if isspace c then lstrip s' else s
  end.

Fixpoint rstrip (s : string) : string :=
  match s with
  | "" => ""
  | String c s' =>
      match rstrip s' with
      | "" => if isspace c then "" else String c ""
      | r => String c r
      end
  end.

(** [s.strip()] *)
Definition strip (s : string) : string := rstrip (lstrip s).

(** Truth value of a string: [bool(s)], false exactly for [""]. *)
Definition truthy (s : string) : bool :=
  match s with "" => false | _ => true end.

(** [s.startswith(p)] *)
Definition startswith (p s : string) : bool := prefix p s.

(** [sub in s] *)
Fixpoint contains (sub s : string) : bool :=
  prefix sub s
  || match s with
     | "" => false
     | String _ s' => contains sub s'
     end.

Definition cons_head (c : ascii) (ts : list string) : list string :=
  match ts with
  | [] => [String c ""]
  | t :: ts' => String c t :: ts'
  end.

(** [s.split()]: the maximal runs of non-whitespace characters. *)
Fixpoint split_ws (s : string) : list string :=
  match s with
  | "" => []
  | String c s' =>
      if isspace c then split_ws s'
      else match s' with
           | "" => [String c ""]
           | String c' _ =>
               if isspace c' then String c "" :: split_ws s'
               else cons_head c (split_ws s')
           end
  end.

(** [s.split(sep)] for a one-character separator: never empty, keeps
    empty fields. *)
Fixpoint split_on (sep : ascii) (s : string) : list string :=
  match s with
  | "" => [""]
  | String c s' =>
      if Ascii.eqb c sep then "" :: split_on sep s'
      else cons_head c (split_on sep s')
  end.

(** [s.split('\n')] *)
Definition lines (s : string) : list string := split_on (ascii_of_nat 10) s.

(** [s.replace(old, new)] for a non-empty [old]: occurrences are replaced
    from the left and do not overlap; [skip] counts the characters of the
    occurrence just replaced that are still to be passed over. *)
Fixpoint replace_from (skip : nat) (old new s : string) : string :=
  match s with
  | "" => ""
  | String c s' =>
      match skip with
      | S k => replace_from k old new s'
      | O =>
          if prefix old s
          then new ++ replace_from (String.length old - 1) old new s'
          else String c (replace_from 0 old new s')
      end
  end.

Definition replace (old new s : string) : string := replace_from 0 old new s.

Definition digit_of (c : ascii) : option Z :=
  let n := nat_of_ascii c in
  if ((48 <=? n) && (n <=? 57))%nat then Some (Z.of_nat (n - 48)) else None.

Definition underscore : ascii := ascii_of_nat 95.

(** The digits of an integer literal given to [int]: decimal digits, with
    single underscores allowed between two digits.  [need_digit] holds at
    the start and right after an underscore, where neither an underscore
    nor the end of the text is accepted.  Returns the value and the number
    of digits read. *)
Fixpoint int_digits (acc : Z) (ndigits : nat) (need_digit : bool)
    (s : string) : option (Z * nat) :=
  match s with
  | "" => if need_digit then None else Some (acc, ndigits)
  | String c s' =>
      if Ascii.eqb c underscore
      then if need_digit then None else int_digits acc ndigits true s'
      else match digit_of c with
           | Some d => int_digits (10 * acc + d) (S ndigits) false s'
           | None => None
           end
  end.

(** [sys.get_int_max_str_digits()], the default limit on the number of
    digits [int] converts. *)
Definition int_max_str_digits : nat := 4300.

Definition int_unsigned (s : string) : option Z :=
  match int_digits 0 0 true s with
  | Some (v, n) => if (n <=? int_max_str_digits)%nat then Some v else None
  | None => None
  end.

(** [int(s)]: [Some v] when the conversion succeeds, [None] when it raises
    [ValueError].  Surrounding whitespace is ignored; one sign is allowed. *)
Definition int (s : string) : option Z :=
  match strip s with
  | String c r =>
      if Ascii.eqb c (ascii_of_nat 45) then option_map Z.opp (int_unsigned r)
      else if Ascii.eqb c (ascii_of_nat 43) then int_unsigned r
      else int_unsigned (String c r)
  | "" => None
  end.

End PyStr.

Import PyStr.

(** ** Data model *)

Record NetworkDevice := {
  name : string;
  type : string;
  powered : bool;
  connected : bool;
  network : string;
  address : string
}.

Record WirelessNetwork := {
  ssid : string;
  security : string;
  signal_strength : Z;
  net_connected : bool;
  known : bool;
  frequency : string
}.

(** The two list fields of a [NetworkManager] object. *)
Record NetworkManager := {
  devices : list NetworkDevice;
  networks : list WirelessNetwork
}.

(** What [subprocess.run] does with a command: it completes with an exit
    status and the captured standard output, or raises (binary missing,
    timeout, I/O error) with a description. *)
Inductive completion :=
| Completed (returncode : Z) (stdout : string)
| Raised (description : string).

(** ** The parsers inside [get_devices] and [scan_networks] *)

(** The [NetworkDevice(...)] built from a row, lines 90-96. *)
Definition device_of_row (line : string) : NetworkDevice :=
  let parts := split_ws line in
  {| name := nth 0 parts "";
     type := nth 1 parts "";
     powered := contains "on" line;
     connected := contains "connected" line;
     network := if (3 <? List.length parts)%nat && contains "connected" line
                then nth 3 parts "" else "";
     address := "" |}.

(** One turn of the loop of lines 86-96. *)
Definition device_step (devs : list NetworkDevice) (line : string)
  : list NetworkDevice :=
  if truthy (strip line) && negb (startswith "-" line) then
    if (3 <=? List.length (split_ws line))%nat
    then (devs ++ [device_of_row line])%list
    else devs
  else devs.

(** [parseDevices]: the loop over [output.split('\n')[3:]]. *)
Definition parse_devices (output : string) : list NetworkDevice :=
  fold_left device_step (skipn 3 (lines output)) [].

(** The loop of lines 131-136: every part containing ["dBm"] that converts
    overwrites [signal]; a [ValueError] leaves it as it is. *)
Fixpoint signal_loop (signal : Z) (parts : list string) : Z :=
  match parts with
  | [] => signal
  | part :: rest =>
      let signal' :=
        if contains "dBm" part then
          match int (strip (replace "dBm" "" part)) with
          | Some v => Z.abs v
          | None => signal
          end
        else signal in
      signal_loop signal' rest
  end.

(** The [WirelessNetwork(...)] built from a row, lines 125-143. *)
Definition network_of_row (line : string) : WirelessNetwork :=
  let parts := split_ws line in
  {| ssid := nth 0 parts "";
     security := if contains "PSK" line || contains "802.1X" line
                 then "secured" else "open";
     signal_strength := signal_loop 50 parts;
     net_connected := contains ">" line;
     known := false;
     frequency := "" |}.

(** One turn of the loop of lines 121-143. *)
Definition network_step (nets : list WirelessNetwork) (line : string)
  : list WirelessNetwork :=
  if truthy (strip line) && negb (startswith "-" line) then
    match split_ws line with
    | [] => nets
    | _ :: _ => (nets ++ [network_of_row line])%list
    end
  else nets.

(** [parseNetworks]: the loop over [output.split('\n')[4:]]. *)
Definition parse_networks (output : string) : list WirelessNetwork :=
  fold_left network_step (skipn 4 (lines output)) [].

(** ** The status projection, [IwdTUI.update_status] *)

Record Status := {
  connection_status : string;
  active_connection : string
}.

(** The [for]/[break] loop of lines 606-610: [(connected, connection_info)]. *)
Fixpoint status_loop (devs : list NetworkDevice) : bool * string :=
  match devs with
  | [] => (false, "")
  | device :: rest =>
      if connected device
      then (true, network device ++ " on " ++ name device)
      else status_loop rest
  end.

Definition update_status (mgr : NetworkManager) : Status :=
  let '(is_connected, connection_info) := status_loop (devices mgr) in
  {| connection_status :=
       if is_connected then "connected to " ++ connection_info
       else "disconnected";
     active_connection := if is_connected then connection_info else "" |}.

(** ** The manager's operations *)

(** [not device] for an optional device name: [None] and [""] are falsy. *)
Definition falsy (device : option string) : bool :=
  match device with
  | None => true
  | Some d => negb (truthy d)
  end.

(** The [for]/[break] loop of lines 104-107. *)
Fixpoint pick_station (device : option string) (devs : list NetworkDevice)
  : option string :=
  match devs with
  | [] => device
  | dev :: rest =>
      if (type dev =? "station") && powered dev then Some (name dev)
      else pick_station device rest
  end.

(** Lines 103-107: with no device given and a non-empty device list, the
    name of the first powered station, if there is one. *)
Definition select_device (device : option string)
    (devs : list NetworkDevice) : option string :=
  if falsy device && negb (Nat.eqb (List.length devs) 0)
  then pick_station device devs
  else device.

(** The loop of lines 157-159: is some device connected to [ssid]? *)
Fixpoint verified (ssid : string) (devs : list NetworkDevice) : bool :=
  match devs with
  | [] => false
  | dev :: rest =>
      if connected dev && (network dev =? ssid) then true
      else verified ssid rest
  end.

(** The loop of lines 171-177: the first device called [device]. *)
Fixpoint lookup_device (device : string) (devs : list NetworkDevice)
  : option NetworkDevice :=
  match devs with
  | [] => None
  | dev :: rest =>
      if name dev =? device then Some dev else lookup_device device rest
  end.

Section Manager.

(** Everything outside the process: the [iwctl] utility, the clock, the
    log.  The program only acts on it through the three operations
    below. *)
Variable World : Type.

(** [subprocess.run(cmd, input=input_text, capture_output=True, text=True,
    timeout=10)] *)
Variable subprocess_run :
  list string -> option string -> World -> completion * World.

(** [time.sleep(seconds)] *)
Variable sleep : Z -> World -> World.

(** [self.logger.error(message)] *)
Variable logger_error : string -> World -> World.

(** A method of [NetworkManager]: it reads and writes the object and the
    world, and returns a value. *)
Definition M (A : Type) : Type :=
  NetworkManager * World -> A * (NetworkManager * World).

Definition ret {A} (a : A) : M A := fun st => (a, st).

Definition bind {A B} (m : M A) (k : A -> M B) : M B :=
  fun st => let '(a, st') := m st in k a st'.

Notation "x <- m ;; k" := (bind m (fun x => k))
  (at level 61, m at next level, right associativity).
Notation "' p <- m ;; k" := (bind m (fun x => let 'p := x in k))
  (at level 61, p pattern, m at next level, right associativity).
Notation "m ;;; k" := (bind m (fun _ => k))
  (at level 61, right associativity).

Definition get_self : M NetworkManager := fun st => (fst st, st).

Definition set_devices (devs : list NetworkDevice) : M unit :=
  fun st => (tt, ({| devices := devs; networks := networks (fst st) |},
                  snd st)).

Definition set_networks (nets : list WirelessNetwork) : M unit :=
  fun st => (tt, ({| devices := devices (fst st); networks := nets |},
                  snd st)).

Definition time_sleep (seconds : Z) : M unit :=
  fun st => (tt, (fst st, sleep seconds (snd st))).

(** [run_command], lines 65-78. *)
Definition run_command (cmd : list string) (input_text : option string)
  : M (bool * string) :=
  fun st =>
    match subprocess_run cmd input_text (snd st) with
    | (Completed returncode stdout, w) =>
        ((Z.eqb returncode 0, stdout), (fst st, w))
    | (Raised e, w) =>
        ((false, e),
         (fst st,
          logger_error ("Command failed: " ++ concat " " cmd ++ " - " ++ e)
                       w))
    end.

(** [get_devices], lines 80-99. *)
Definition get_devices : M (list NetworkDevice) :=
  '(success, output) <- run_command ["iwctl"; "device"; "list"] None ;;
  let devs := if success then parse_devices output else [] in
  set_devices devs ;;;
  ret devs.

(** [scan_networks], lines 101-146. *)
Definition scan_networks (device : option string)
  : M (list WirelessNetwork) :=
  self <- get_self ;;
  let device := select_device device (devices self) in
  match device with
  | None => ret []
  | Some dev =>
      if negb (truthy dev) then ret []
      else
        run_command ["iwctl"; "station"; dev; "scan"] None ;;;
        time_sleep 2 ;;;
        '(success, output) <-
           run_command ["iwctl"; "station"; dev; "get-networks"] None ;;
        let nets := if success then parse_networks output else [] in
        set_networks nets ;;;
        ret nets
  end.

(** [connect_to_network], lines 148-162. *)
Definition connect_to_network (device ssid : string)
    (password : option string) : M (bool * string) :=
  '(success, output) <-
     run_command ["iwctl"; "station"; device; "connect"; ssid] password ;;
  if success then
    time_sleep 2 ;;;
    get_devices ;;;
    self <- get_self ;;
    if verified ssid (devices self)
    then ret (true, "Connected to " ++ ssid)
    else ret (false, "Connection verification failed")
  else ret (false, "Connection failed: " ++ output).

(** [disconnect_network], lines 164-167. *)
Definition disconnect_network (device : string) : M (bool * string) :=
  '(success, output) <-
     run_command ["iwctl"; "station"; device; "disconnect"] None ;;
  ret (success,
       if success then "Disconnected" else "Disconnect failed: " ++ output).

(** [toggle_device_power], lines 169-178. *)
Definition toggle_device_power (device : string) : M bool :=
  self <- get_self ;;
  match lookup_device device (devices self) with
  | Some dev =>
      let new_state := if powered dev then "off" else "on" in
      '(success, _) <-
         run_command ["iwctl"; "device"; device; "set-property";
                      "Powered"; new_state] None ;;
      ret success
  | None => ret false
  end.

End Manager.

Arguments ret {World A} a.
Arguments get_devices {World} subprocess_run logger_error.
Arguments scan_networks {World} subprocess_run sleep logger_error device.
Arguments connect_to_network {World} subprocess_run sleep logger_error
  device ssid password.
Arguments run_command {World} subprocess_run logger_error cmd input_text.
Arguments bind {World A B} m k.
Arguments get_self {World}.
Arguments disconnect_network {World} subprocess_run logger_error device.
Arguments toggle_device_power {World} subprocess_run logger_error device.

(** ** A scripted world, to run the operations on concrete inputs

    The utility's answers are fixed in advance; every command issued, every
    sleep and every log line is recorded. *)

Inductive event :=
| Ran (cmd : list string) (input_text : option string)
| Slept (seconds : Z)
| Logged (message : string).

Record Script := {
  answers : list completion;
  trace : list event
}.

Definition script_run (cmd : list string) (input_text : option string)
    (w : Script) : completion * Script :=
  let tr := (trace w ++ [Ran cmd input_text])%list in
  match answers w with
  | [] => (Raised "no answer", {| answers := []; trace := tr |})
  | a :: rest => (a, {| answers := rest; trace := tr |})
  end.

Definition script_sleep (seconds : Z) (w : Script) : Script :=
  {| answers := answers w; trace := (trace w ++ [Slept seconds])%list |}.

Definition script_log (message : string) (w : Script) : Script :=
  {| answers := answers w; trace := (trace w ++ [Logged message])%list |}.

Definition script (l : list completion) : Script :=
  {| answers := l; trace := [] |}.



Definition script_get_devices := get_devices script_run script_log.

Definition script_scan_networks :=
  scan_networks script_run script_sleep script_log.

Definition script_connect :=
  connect_to_network script_run script_sleep script_log.

(** A station associated with "HomeNet", and the same station idle. *)
Definition wlan0_up : NetworkDevice :=
  {| name := "wlan0"; type := "station"; powered := true; connected := true;
     network := "HomeNet"; address := "" |}.

Definition wlan0_idle : NetworkDevice :=
  {| name := "wlan0"; type := "station"; powered := true; connected := false;
     network := ""; address := "" |}.

Definition eth0 : NetworkDevice :=
  {| name := "eth0"; type := "ethernet"; powered := false; connected := false;
     network := ""; address := "" |}.

(** A manager that knows one connected station and one network. *)
Definition mgr_home : NetworkManager :=
  {| devices := [wlan0_up];
     networks := [ {| ssid := "HomeNet"; security := "secured";
                      signal_strength := 40; net_connected := true;
                      known := false; frequency := "" |} ] |}.

(** A manager that knows no powered station. *)
Definition mgr_wired : NetworkManager :=
  {| devices := [eth0]; networks := [] |}.

(** ** The rows behind a parse result *)

(** The lines after the header of a device table. *)
Definition device_rows (output : string) : list string :=
  skipn 3 (lines output).

(** The lines after the header of a network table. *)
Definition network_rows (output : string) : list string :=
  skipn 4 (lines output).

(** A row "tokenizes to at least 3 whitespace tokens". *)
Definition three_tokens (line : string) : bool :=
  (3 <=? List.length (split_ws line))%nat.

(** The rows [get_devices] turns into a device. *)
Definition device_row_kept (line : string) : bool :=
  negb (startswith "-" line) && three_tokens line.

(** The rows [scan_networks] turns into a network: "non-blank and not
    beginning with a dash". *)
Definition network_row_kept (line : string) : bool :=
  truthy (strip line) && negb (startswith "-" line).

(** A three-line header in front of the data. *)
Definition with_header (h1 h2 h3 data : string) : string :=
  h1 ++ nl ++ h2 ++ nl ++ h3 ++ nl ++ data.

(** A device table whose only row starts with a dash. *)
Definition dash_table : string :=
  with_header "Devices" "Name  Type  Powered"
              "-----------------------------------"
              "-wlan0  station  on".

(** A device table whose only row is a station that is switched off. *)
Definition off_table : string :=
  with_header "Devices" "Name  Type  Powered"
              "-----------------------------------"
              "wlan0  station  off".

(** A four-line header in front of the data of a network table. *)
Definition with_net_header (data : string) : string :=
  "Available networks" ++ nl ++ "-----------------------------------" ++ nl
  ++ "Network name  Security  Signal" ++ nl
  ++ "-----------------------------------" ++ nl ++ data.

(** What one part of a row contributes to the signal strength: the
    magnitude read from it when it contains "dBm" and converts. *)
Definition dBm_value (part : string) : option Z :=
  if contains "dBm" part
  then option_map Z.abs (int (strip (replace "dBm" "" part)))
  else None.

(** No character of [s] is the letter d. *)
Fixpoint no_d (s : string) : bool :=
  match s with
  | "" => true
  | String c s' => negb (Ascii.eqb c "d") && no_d s'
  end.

(** The device table of scenario A. *)
Definition scenario_A : string :=
  with_header "Devices" "Name  Type  Powered  State  Network"
              "-----------------------------------"
              "wlan0  station  on  connected  HomeNet".

(** ** Tokens *)

(** No character of [s] is whitespace. *)
Fixpoint no_space (s : string) : bool :=
  match s with
  | "" => true
  | String c s' => negb (isspace c) && no_space s'
  end.

(** Every character of [s] is whitespace. *)
Fixpoint all_space (s : string) : bool :=
  match s with
  | "" => true
  | String c s' => isspace c && all_space s'
  end.

(** What [s.split()] can return as a token: a non-empty text without
    whitespace. *)
Definition token (s : string) : bool := truthy s && no_space s.

Definition script_disconnect := disconnect_network script_run script_log.

Definition script_toggle := toggle_device_power script_run script_log.

(** A device table whose only row has "HomeNet" as fourth token and the
    word "connected" after it. *)
Definition homenet_table : string :=
  with_header "Devices" "Name  Type  Powered  Network  State"
              "-----------------------------------"
              "wlan0  station  on  HomeNet  connected".

(** A manager whose device list was parsed from [off_table]. *)
Definition mgr_off : NetworkManager :=
  {| devices := parse_devices off_table; networks := [] |}.

(** ** Python sequences indexed by integers *)

(** Where a slice bound [i] falls in a sequence of length [len]: negative
    bounds count from the end, and every bound is clipped to the sequence. *)
Definition slice_bound (len i : Z) : nat :=
  Z.to_nat (if (i <? 0)%Z then Z.max (i + len) 0 else Z.min i len).

(** [l[start:stop]] *)
Definition list_slice {A : Type} (l : list A) (start stop : Z) : list A :=
  let a := slice_bound (Z.of_nat (List.length l)) start in
  let b := slice_bound (Z.of_nat (List.length l)) stop in
  firstn (b - a) (skipn a l).

(** [l[i]]; [None] stands for [IndexError]. *)
Definition list_index {A : Type} (l : list A) (i : Z) : option A :=
  let len := Z.of_nat (List.length l) in
  if (i <? 0)%Z
  then if (i + len <? 0)%Z then None else nth_error l (Z.to_nat (i + len))
  else nth_error l (Z.to_nat i).

Fixpoint str_take (n : nat) (s : string) : string :=
  match n, s with
  | S k, String c s' => String c (str_take k s')
  | _, _ => ""
  end.

Fixpoint str_drop (n : nat) (s : string) : string :=
  match n, s with
  | S k, String _ s' => str_drop k s'
  | _, _ => s
  end.

(** [s[:i]] *)
Definition slice_to (s : string) (i : Z) : string :=
  str_take (slice_bound (Z.of_nat (String.length s)) i) s.

(** [s[i:]] *)
Definition slice_from (s : string) (i : Z) : string :=
  str_drop (slice_bound (Z.of_nat (String.length s)) i) s.

Fixpoint spaces (n : nat) : string :=
  match n with
  | O => ""
  | S k => String " " (spaces k)
  end.

(** [s.ljust(width)] *)
Definition ljust (s : string) (width : Z) : string :=
  s ++ spaces (Z.to_nat (width - Z.of_nat (String.length s))).

(** [enumerate(l)], counting from [i]. *)
Fixpoint enumerate_from {A : Type} (i : Z) (l : list A) : list (Z * A) :=
  match l with
  | [] => []
  | a :: l' => (i, a) :: enumerate_from (i + 1) l'
  end.

(** ** The list view, [ListView] *)

Module ListView.

Record t := {
  y : Z;
  x : Z;
  width : Z;
  height : Z;
  items : list string;
  selected_index : Z;
  scroll_offset : Z
}.

(** [ListView(y, x, width, height)] *)
Definition init (y x width height : Z) : t :=
  {| y := y; x := x; width := width; height := height;
     items := []; selected_index := 0; scroll_offset := 0 |}.

(** One [stdscr.addstr(y_pos, self.x, display_text)] of the item loop, with
    whether it is drawn in the selected colours. *)
Record row := {
  y_pos : Z;
  x_pos : Z;
  display_text : string;
  is_selected : bool
}.

(** Lines 222-226. *)
Definition adjust_scroll (scroll_offset selected_index height : Z) : Z :=
  if (selected_index <? scroll_offset)%Z then selected_index
  else if (selected_index >=? scroll_offset + height)%Z
       then (selected_index - height + 1)%Z
       else scroll_offset.

(** [draw], lines 217-249, as what it writes to the view and what it asks
    the screen to show: the rows of the item loop, and whether the upper and
    the lower scroll indicator are drawn. *)
Definition draw (self : t) (items : list string) (selected_index : Z)
  : t * list row * (bool * bool) :=
  let scroll := adjust_scroll (scroll_offset self) selected_index
                              (height self) in
  let visible_items := list_slice items scroll (scroll + height self) in
  let rows :=
    map (fun '(i, item) =>
           {| y_pos := (y self + i)%Z;
              x_pos := x self;
              display_text := slice_to (ljust item (width self)) (width self);
              is_selected := ((i + scroll)%Z =? selected_index)%Z |})
        (enumerate_from 0 visible_items) in
  ({| y := y self; x := x self; width := width self; height := height self;
      items := items; selected_index := selected_index;
      scroll_offset := scroll |},
   rows,
   ((scroll >? 0)%Z,
    (Z.of_nat (List.length items) >? scroll + height self)%Z)).

End ListView.

(** ** Keys *)

(** The key codes of [curses]. *)
Definition KEY_DOWN : Z := 258.
Definition KEY_UP : Z := 259.
Definition KEY_LEFT : Z := 260.
Definition KEY_RIGHT : Z := 261.
Definition KEY_BACKSPACE : Z := 263.
Definition KEY_ENTER : Z := 343.

(** [key in [curses.KEY_ENTER, 10, 13]] *)
Definition is_enter (key : Z) : bool :=
  ((key =? KEY_ENTER) || (key =? 10) || (key =? 13))%Z.

(** [ord(c)] and [chr(n)] *)
Definition ord (c : ascii) : Z := Z.of_nat (nat_of_ascii c).
Definition chr (n : Z) : ascii := ascii_of_nat (Z.to_nat n).

(** ** The dialogs, [Dialog] *)

Module Dialog.

(** The state of the loop of [input], lines 318-346: still editing, or
    returned with the text or with [None]. *)
Inductive input_state :=
| Editing (input_text : string) (cursor_pos : Z)
| Returned (result : option string).

(** One turn of the loop, for the key [stdscr.getch()] gave. *)
Definition input_key (input_text : string) (cursor_pos : Z) (key : Z)
  : input_state :=
  if is_enter key then Returned (Some input_text)
  else if (key =? 27)%Z then Returned None
  else if ((key =? KEY_BACKSPACE) || (key =? 127))%Z then
    if (cursor_pos >? 0)%Z
    then Editing (slice_to input_text (cursor_pos - 1)
                  ++ slice_from input_text cursor_pos)
                 (cursor_pos - 1)
    else Editing input_text cursor_pos
  else if (key =? KEY_LEFT)%Z then
    Editing input_text (Z.max 0 (cursor_pos - 1))
  else if (key =? KEY_RIGHT)%Z then
    Editing input_text
            (Z.min (Z.of_nat (String.length input_text)) (cursor_pos + 1))
  else if ((32 <=? key) && (key <=? 126))%Z then
    Editing (slice_to input_text cursor_pos ++ String (chr key) ""
             ++ slice_from input_text cursor_pos)
            (cursor_pos + 1)
  else Editing input_text cursor_pos.

(** The loop, fed with the keys [getch] gives one after the other; it stops
    at the first key that returns. *)
Fixpoint input_loop (st : input_state) (keys : list Z) : input_state :=
  match st, keys with
  | Editing input_text cursor_pos, key :: rest =>
      input_loop (input_key input_text cursor_pos key) rest
  | _, _ => st
  end.

(** [input], from its initial state [input_text = ""], [cursor_pos = 0]. *)
Definition input (keys : list Z) : input_state :=
  input_loop (Editing "" 0) keys.

(** [max(len(line) for line in lines)]; [None] stands for the [ValueError]
    of an empty sequence. *)
Definition max_len (ls : list string) : option Z :=
  match ls with
  | [] => None
  | l :: ls' =>
      Some (fold_left (fun m l' => Z.max m (Z.of_nat (String.length l')))
                      ls' (Z.of_nat (String.length l)))
  end.

(** The box of [message], lines 256-263. *)
Record box := {
  box_y : Z;
  box_x : Z;
  box_width : Z;
  box_height : Z
}.

Definition message_box (title message : string)
    (screen_height screen_width : Z) : option box :=
  let ls := lines message in
  match max_len ls with
  | None => None
  | Some m =>
      let width := Z.max (m + 4) (Z.of_nat (String.length title) + 4) in
      let height := (Z.of_nat (List.length ls) + 6)%Z in
      Some {| box_y := ((screen_height - height) / 2)%Z;
              box_x := ((screen_width - width) / 2)%Z;
              box_width := width;
              box_height := height |}
  end.

End Dialog.

(** ** The application, [IwdTUI] *)

(** [get_signal_bars], lines 456-467. *)
Definition get_signal_bars (strength : Z) : string :=
  if (strength >? 80)%Z then "|||||"
  else if (strength >? 60)%Z then "|||| "
  else if (strength >? 40)%Z then "|||  "
  else if (strength >? 20)%Z then "||   "
  else "|    ".

(** The number of bar characters in a text. *)
Fixpoint bars (s : string) : nat :=
  match s with
  | "" => O
  | String c s' => ((if Ascii.eqb c "|" then 1 else 0) + bars s')%nat
  end.

(** The fields of [IwdTUI] the key handlers write. *)
Record Screen := {
  current_screen : string;
  selected_index : Z
}.

Section Screens.

Variable World : Type.
Variable subprocess_run :
  list string -> option string -> World -> completion * World.
Variable logger_error : string -> World -> World.

Local Abbreviation refresh := (get_devices subprocess_run logger_error).
Local Abbreviation toggle := (toggle_device_power subprocess_run logger_error).

Definition back_to_main : Screen :=
  {| current_screen := "main"; selected_index := 0 |}.

(** [handle_main_screen_input], lines 502-523: the new screen fields and
    whether the application keeps running. *)
Definition handle_main_screen_input (ui : Screen) (key : Z)
  : M World (Screen * bool) :=
  let menu_count := 6%Z in
  if (key =? KEY_UP)%Z then
    ret ({| current_screen := current_screen ui;
            selected_index := ((selected_index ui - 1) mod menu_count)%Z |},
         true)
  else if (key =? KEY_DOWN)%Z then
    ret ({| current_screen := current_screen ui;
            selected_index := ((selected_index ui + 1) mod menu_count)%Z |},
         true)
  else if is_enter key then
    if (selected_index ui =? 0)%Z then
      ret ({| current_screen := "networks"; selected_index := 0 |}, true)
    else if (selected_index ui =? 1)%Z then
      bind refresh (fun _ =>
      ret ({| current_screen := "devices"; selected_index := 0 |}, true))
    else if (selected_index ui =? 5)%Z then ret (ui, false)
    else ret (ui, true)
  else if ((key =? ord "q") || (key =? ord "Q"))%Z then ret (ui, false)
  else ret (ui, true).

(** [handle_device_list_input], lines 578-599; [None] stands for the
    [IndexError] of [devices[selected_index]]. *)
Definition handle_device_list_input (ui : Screen) (key : Z)
  : M World (option Screen) :=
  bind get_self (fun self =>
  let device_count := Z.of_nat (List.length (devices self)) in
  let total_items := (device_count + 2)%Z in
  if (key =? KEY_UP)%Z then
    ret (Some {| current_screen := current_screen ui;
                 selected_index := Z.max 0 (selected_index ui - 1) |})
  else if (key =? KEY_DOWN)%Z then
    ret (Some {| current_screen := current_screen ui;
                 selected_index :=
                   Z.min (total_items - 1) (selected_index ui + 1) |})
  else if is_enter key then
    if (selected_index ui <? device_count)%Z then
      match list_index (devices self) (selected_index ui) with
      | None => ret None
      | Some device =>
          bind (toggle (name device)) (fun toggled =>
          if toggled then bind refresh (fun _ => ret (Some ui))
          else ret (Some ui))
      end
    else if (selected_index ui =? device_count + 1)%Z
         then ret (Some back_to_main)
         else ret (Some ui)
  else if ((key =? ord "b") || (key =? ord "B"))%Z
       then ret (Some back_to_main)
       else ret (Some ui)).

End Screens.

Arguments handle_main_screen_input {World} subprocess_run logger_error ui key.
Arguments handle_device_list_input {World} subprocess_run logger_error ui key.

Definition script_main_key := handle_main_screen_input script_run script_log.

Definition script_device_key :=
  handle_device_list_input script_run script_log.

Example strip_ex : strip ("  a b " ++ nl) = "a b".
Proof. reflexivity. Qed.

Example split_ws_ex :
  split_ws "wlan0  station  on  connected  HomeNet"
  = ["wlan0"; "station"; "on"; "connected"; "HomeNet"].
Proof. reflexivity. Qed.

Example lines_ex : lines ("a" ++ nl ++ nl ++ "b" ++ nl) = ["a"; ""; "b"; ""].
Proof. reflexivity. Qed.

Example replace_ex : replace "dBm" "" "-67dBm" = "-67".
Proof. reflexivity. Qed.

Example replace_ex2 : replace "aa" "b" "aaaxaa" = "baxb".
Proof. reflexivity. Qed.

Example int_ex : int " -6_7 " = Some (-67)%Z.
Proof. reflexivity. Qed.

Example int_ex_bad : int "6__7" = None /\ int "_7" = None /\ int "-" = None
                     /\ int "- 7" = None /\ int "7_" = None.
Proof. repeat split; reflexivity. Qed.

(** ** Facts about the string operations *)

Section StringFacts.

Lemma prefix_app (p r : string) : prefix p (p ++ r) = true.
Proof.
  induction p as [|c p IH]; simpl.
  - now destruct r.
  - destruct (ascii_dec c c); [assumption | congruence].
Qed.

Lemma prefix_inv (p s : string) :
  prefix p s = true -> exists r, s = p ++ r.
Proof.
  revert s; induction p as [|c p IH]; intros s H.
  - now exists s.
  - destruct s as [|c' s]; simpl in H; [discriminate|].
    destruct (ascii_dec c c') as [->|]; [|discriminate].
    destruct (IH _ H) as [r ->]. now exists r.
Qed.

Lemma append_assoc (a b c : string) : (a ++ b) ++ c = a ++ (b ++ c).
Proof. induction a; simpl; congruence. Qed.

Lemma append_nil_r (a : string) : a ++ "" = a.
Proof. induction a; simpl; congruence. Qed.

(** [sub in s] holds exactly when [sub] occurs somewhere inside [s]. *)
Lemma contains_iff (sub s : string) :
  contains sub s = true <-> exists pre post, s = pre ++ sub ++ post.
Proof.
  split.
  - induction s as [|c s IH]; cbn [contains]; intros H.
    + rewrite orb_false_r in H. destruct (prefix_inv _ _ H) as [r Hr].
      now exists "", r.
    + apply orb_true_iff in H as [H|H].
      * destruct (prefix_inv _ _ H) as [r Hr]. now exists "", r.
      * destruct (IH H) as (pre & post & ->). now exists (String c pre), post.
  - intros (pre & post & ->).
    induction pre as [|c pre IH].
    + change ("" ++ sub ++ post) with (sub ++ post).
      destruct (sub ++ post) eqn:E; cbn [contains]; rewrite <- E, prefix_app;
        reflexivity.
    + change (String c pre ++ sub ++ post) with (String c (pre ++ sub ++ post)).
      cbn [contains]. rewrite IH. apply orb_true_r.
Qed.

Lemma contains_app_r (sub a b : string) :
  contains sub b = true -> contains sub (a ++ b) = true.
Proof.
  rewrite !contains_iff. intros (pre & post & ->).
  exists (a ++ pre), post. now rewrite append_assoc.
Qed.

Lemma contains_app_l (sub a b : string) :
  contains sub a = true -> contains sub (a ++ b) = true.
Proof.
  rewrite !contains_iff. intros (pre & post & ->).
  exists pre, (post ++ b). now rewrite !append_assoc.
Qed.

(** A text that starts with a non-blank character starts with its first
    token. *)
Lemma split_ws_head (c : ascii) (s : string) :
  isspace c = false ->
  exists t ts rest,
    split_ws (String c s) = String c t :: ts /\ s = t ++ rest.
Proof.
  revert c; induction s as [|c' s IH]; intros c Hc.
  - exists "", [], "". simpl. now rewrite Hc.
  - simpl. rewrite Hc. destruct (isspace c') eqn:Hc'.
    + now exists "", (split_ws s), (String c' s).
    + destruct (IH c' Hc') as (t & ts & rest & E & ->).
      simpl in E. rewrite Hc' in E. rewrite E.
      now exists (String c' t), ts, rest.
Qed.

(** Every token of [s.split()] occurs in [s]. *)
Lemma split_ws_substring (s t : string) :
  In t (split_ws s) -> exists pre post, s = pre ++ t ++ post.
Proof.
  revert t; induction s as [|c s IH]; intros t H; [easy|].
  destruct (isspace c) eqn:Hc.
  - simpl in H. rewrite Hc in H.
    destruct (IH _ H) as (pre & post & ->). now exists (String c pre), post.
  - destruct (split_ws_head c s Hc) as (t0 & ts & rest & E & Hs).
    pose proof H as H'. rewrite E in H'. destruct H' as [<-|Hin].
    + exists "", rest. simpl. now rewrite Hs.
    + assert (In t (split_ws s)) as Hin'.
      { simpl in E. rewrite Hc in E. destruct s as [|c' s']; [now inversion E; subst|].
        destruct (isspace c').
        - inversion E; subst. exact Hin.
        - destruct (split_ws (String c' s')); simpl in E; inversion E; subst.
          + destruct Hin.
          + now right. }
      destruct (IH _ Hin') as (pre & post & ->).
      now exists (String c pre), post.
Qed.

(** A text has no token exactly when stripping it on the left leaves
    nothing. *)
Lemma lstrip_blank (s : string) :
  truthy (lstrip s) = false <-> split_ws s = [].
Proof.
  induction s as [|c s IH]; simpl; [easy|].
  destruct (isspace c) eqn:Hc; [exact IH|].
  split; [discriminate|].
  destruct s as [|c' s']; [discriminate|].
  destruct (isspace c'); [discriminate|].
  destruct (split_ws (String c' s')); discriminate.
Qed.

Lemma rstrip_nonblank (c : ascii) (s : string) :
  isspace c = false -> exists r, rstrip (String c s) = String c r.
Proof.
  intros Hc. simpl. destruct (rstrip s) as [|c' r].
  - rewrite Hc. now exists "".
  - now exists (String c' r).
Qed.

Lemma lstrip_cases (s : string) :
  lstrip s = "" \/ exists c r, lstrip s = String c r /\ isspace c = false.
Proof.
  induction s as [|c s IH]; simpl; [now left|].
  destruct (isspace c) eqn:Hc; [exact IH|].
  right. now exists c, s.
Qed.

(** [line.strip()] is truthy exactly when [line.split()] is not empty. *)
Lemma strip_truthy (s : string) :
  truthy (strip s) = match split_ws s with [] => false | _ => true end.
Proof.
  unfold strip.
  destruct (split_ws s) as [|t ts] eqn:E.
  - apply lstrip_blank in E. destruct (lstrip s); [reflexivity|discriminate].
  - destruct (lstrip_cases s) as [H|(c & r & H & Hc)].
    + assert (split_ws s = []) as E' by (apply lstrip_blank; now rewrite H).
      congruence.
    + rewrite H. destruct (rstrip_nonblank c r Hc) as [r' ->]. reflexivity.
Qed.

End StringFacts.

(** ** The parsing loops as filters *)

Section Loops.

Context {A : Type} (keep : string -> bool) (build : string -> A).

Let step (acc : list A) (line : string) : list A :=
  if keep line then (acc ++ [build line])%list else acc.

(** A loop that appends one record per accepted line builds the records of
    the accepted lines, in order. *)
Lemma append_loop (rows : list string) (acc : list A) :
  fold_left step rows acc = (acc ++ map build (filter keep rows))%list.
Proof.
  revert acc; induction rows as [|r rows IH]; intros acc; simpl.
  - now rewrite app_nil_r.
  - rewrite IH. unfold step. destruct (keep r); [|reflexivity].
    simpl. now rewrite <- app_assoc.
Qed.

End Loops.

Lemma fold_left_ext {A B} (f g : A -> B -> A) (l : list B) (a : A) :
  (forall x y, f x y = g x y) -> fold_left f l a = fold_left g l a.
Proof.
  intros H. revert a; induction l as [|y l IH]; intros a; simpl; [easy|].
  now rewrite H, IH.
Qed.

Lemma parse_devices_filter (output : string) :
  parse_devices output
  = map device_of_row (filter device_row_kept (device_rows output)).
Proof.
  unfold parse_devices, device_rows.
  rewrite (fold_left_ext device_step
             (fun acc line => if device_row_kept line
                              then (acc ++ [device_of_row line])%list else acc)).
  - now rewrite append_loop.
  - intros acc line. unfold device_step, device_row_kept, three_tokens.
    rewrite strip_truthy.
    destruct (split_ws line) as [|t ts]; simpl.
    + now rewrite andb_false_r.
    + destruct (startswith "-" line); simpl; reflexivity.
Qed.

Lemma parse_networks_filter (output : string) :
  parse_networks output
  = map network_of_row (filter network_row_kept (network_rows output)).
Proof.
  unfold parse_networks, network_rows.
  rewrite (fold_left_ext network_step
             (fun acc line => if network_row_kept line
                              then (acc ++ [network_of_row line])%list else acc)).
  - now rewrite append_loop.
  - intros acc line. unfold network_step, network_row_kept.
    rewrite strip_truthy.
    destruct (split_ws line) as [|t ts]; simpl; reflexivity.
Qed.

(** A line without a line feed, followed by a line feed, is the first line. *)
Lemma lines_cons (h rest : string) :
  contains nl h = false -> lines (h ++ nl ++ rest) = h :: lines rest.
Proof.
  unfold lines. induction h as [|c h IH]; intros Hh; [reflexivity|].
  cbn [contains] in Hh. apply orb_false_iff in Hh as [Hp Hc].
  change (String c h ++ nl ++ rest) with (String c (h ++ nl ++ rest)).
  cbn [split_on]. destruct (Ascii.eqb c (ascii_of_nat 10)) eqn:E.
  - apply Ascii.eqb_eq in E. subst c. unfold nl in Hp. cbn in Hp.
    destruct h; discriminate Hp.
  - rewrite (IH Hc). reflexivity.
Qed.

Lemma device_rows_with_header (h1 h2 h3 data : string) :
  contains nl h1 = false -> contains nl h2 = false -> contains nl h3 = false ->
  device_rows (with_header h1 h2 h3 data) = lines data.
Proof.
  intros H1 H2 H3. unfold device_rows, with_header.
  now rewrite !lines_cons.
Qed.

(** ** The device table *)

Lemma kept_device_parsed (output line : string) :
  In line (device_rows output) -> device_row_kept line = true ->
  In (device_of_row line) (parse_devices output).
Proof.
  intros Hin Hk. rewrite parse_devices_filter.
  apply in_map, filter_In. now split.
Qed.

(** C2, as the code has it: behind any three header lines, the single row
    "wlan0  station  on  connected  HomeNet" parses to exactly one device,
    named "wlan0", of type "station", powered and connected, whose network
    is the fourth token of the row, "connected". *)
Theorem scenario_A_network_is_fourth_token (h1 h2 h3 : string) :
  contains nl h1 = false -> contains nl h2 = false -> contains nl h3 = false ->
  parse_devices
    (with_header h1 h2 h3 "wlan0  station  on  connected  HomeNet")
  = [ {| name := "wlan0"; type := "station"; powered := true;
         connected := true; network := "connected"; address := "" |} ].
Proof.
  intros H1 H2 H3.
  rewrite parse_devices_filter, device_rows_with_header by assumption.
  reflexivity.
Qed.

Lemma scenario_A_network_is_fourth_token_witness :
  parse_devices scenario_A
  = [ {| name := "wlan0"; type := "station"; powered := true;
         connected := true; network := "connected"; address := "" |} ].
Proof.
  apply (scenario_A_network_is_fourth_token
           "Devices" "Name  Type  Powered  State  Network"
           "-----------------------------------"); reflexivity.
Defined.

(** C2, as stated, fails on scenario A: the device parsed from it is not the
    one whose network is "HomeNet". *)
Lemma scenario_A_network_not_HomeNet :
  parse_devices scenario_A
  <> [ {| name := "wlan0"; type := "station"; powered := true;
          connected := true; network := "HomeNet"; address := "" |} ].
Proof. vm_compute. discriminate. Qed.

(** What line 93 computes: the device of a kept row is powered exactly when
    the text "on" occurs somewhere in the row, as a token or inside one; so
    every kept row whose type is "station" reads as powered, whatever its
    power column says. *)
Theorem powered_iff_on_occurs (output line : string) :
  In line (device_rows output) -> device_row_kept line = true ->
  In (device_of_row line) (parse_devices output)
  /\ (powered (device_of_row line) = true
      <-> exists pre post, line = pre ++ "on" ++ post)
  /\ (In "on" (split_ws line) -> powered (device_of_row line) = true)
  /\ (type (device_of_row line) = "station"
      -> powered (device_of_row line) = true).
Proof.
  intros Hin Hk. split; [now apply kept_device_parsed|].
  split; [apply contains_iff|]. split.
  - intros Ht. apply contains_iff. now apply split_ws_substring.
  - intros Hty. apply contains_iff.
    unfold device_row_kept, three_tokens in Hk.
    apply andb_true_iff in Hk as [_ Hk]. apply Nat.leb_le in Hk.
    assert (In "station" (split_ws line)) as Ht.
    { simpl in Hty. rewrite <- Hty. apply nth_In. lia. }
    destruct (split_ws_substring _ _ Ht) as (pre & post & ->).
    exists (pre ++ "stati"), post. now rewrite !append_assoc.
Qed.

Lemma powered_iff_on_occurs_witness :
  In (device_of_row "wlan0  station  off") (parse_devices off_table)
  /\ powered (device_of_row "wlan0  station  off") = true.
Proof.
  destruct (powered_iff_on_occurs off_table "wlan0  station  off")
    as (Hin & _ & _ & Hst).
  - vm_compute. now left.
  - reflexivity.
  - split; [exact Hin | apply Hst; reflexivity].
Defined.

(** C3, the code against the claim: on the row "wlan0  station  off" no
    token is "on", so the claim makes the device not powered; the code reads
    it as powered, because "on" occurs inside "station".  The two places
    that rely on [powered] then go wrong: the scan picks this switched-off
    station as its powered station (line 105), and toggling its power asks
    for "off" again (line 173). *)
Theorem powered_without_on_token :
  exists d, parse_devices off_table = [d]
            /\ d = device_of_row "wlan0  station  off"
            /\ split_ws "wlan0  station  off" = ["wlan0"; "station"; "off"]
            /\ ~ In "on" (split_ws "wlan0  station  off")
            /\ powered d = true
            /\ select_device None [d] = Some "wlan0"
            /\ trace (snd (snd (script_toggle "wlan0"
                                  ({| devices := [d]; networks := [] |},
                                   script [Completed 0 ""]))))
               = [Ran ["iwctl"; "device"; "wlan0"; "set-property"; "Powered";
                       "off"] None].
Proof.
  eexists. split; [reflexivity|]. split; [reflexivity|].
  split; [reflexivity|]. split.
  - vm_compute. intros [H|[H|[H|[]]]]; discriminate H.
  - repeat split.
Qed.

(** C6, as the code has it: the devices returned are those of the rows after
    the three header lines that do not start with a dash and have at least
    three tokens, one device per such row, in the order of the rows. *)
Theorem parse_devices_rows (output : string) :
  parse_devices output
  = map device_of_row
        (filter (fun line => negb (startswith "-" line) && three_tokens line)
                (device_rows output)).
Proof. exact (parse_devices_filter output). Qed.

(** C6, as stated, fails on a table whose row starts with a dash: the row has
    three tokens and no device comes out of it. *)
Lemma dash_row_dropped :
  filter three_tokens (device_rows dash_table) = ["-wlan0  station  on"]
  /\ parse_devices dash_table = []
  /\ parse_devices dash_table
     <> map device_of_row (filter three_tokens (device_rows dash_table)).
Proof. repeat split; vm_compute; discriminate. Qed.

(** ** Conversion of a signal reading *)

Lemma rstrip_idem (s : string) : rstrip (rstrip s) = rstrip s.
Proof.
  induction s as [|c s IH]; [reflexivity|].
  simpl. destruct (rstrip s) as [|c' r] eqn:E.
  - destruct (isspace c) eqn:Hc; [reflexivity|]. simpl. now rewrite Hc.
  - change (rstrip (String c (String c' r))) with
      (match rstrip (String c' r) with
       | "" => if isspace c then "" else String c ""
       | r0 => String c r0
       end).
    now rewrite IH.
Qed.

Lemma strip_idem (s : string) : strip (strip s) = strip s.
Proof.
  unfold strip.
  destruct (lstrip_cases s) as [H|(c & r & H & Hc)]; rewrite H; [reflexivity|].
  destruct (rstrip_nonblank c r Hc) as [r' E].
  rewrite E. simpl lstrip. rewrite Hc. rewrite <- E. apply rstrip_idem.
Qed.

Lemma int_strip (s : string) : int (strip s) = int s.
Proof. unfold int. now rewrite strip_idem. Qed.

Lemma isspace_not_d (c : ascii) :
  isspace c = true -> Ascii.eqb c "d" = false.
Proof.
  destruct (Ascii.eqb c "d") eqn:E; [|reflexivity].
  apply Ascii.eqb_eq in E. subst c. discriminate.
Qed.

Lemma no_d_lstrip (s : string) : no_d (lstrip s) = true -> no_d s = true.
Proof.
  induction s as [|c s IH]; simpl; [easy|].
  destruct (isspace c) eqn:Hc; [|easy].
  intros H. now rewrite (isspace_not_d c Hc), IH.
Qed.

Lemma no_d_rstrip (s : string) : no_d (rstrip s) = true -> no_d s = true.
Proof.
  induction s as [|c s IH]; simpl; [easy|].
  destruct (rstrip s) as [|c' r].
  - destruct (isspace c) eqn:Hc.
    + intros _. now rewrite (isspace_not_d c Hc), IH.
    + simpl. rewrite andb_true_r. intros ->. now rewrite IH.
  - cbn [no_d]. intros H. apply andb_true_iff in H as [-> H]. now rewrite IH.
Qed.

Lemma int_digits_no_d (s : string) :
  forall acc n b r, int_digits acc n b s = Some r -> no_d s = true.
Proof.
  induction s as [|c s IH]; intros acc n b r H; [reflexivity|].
  simpl in H. cbn [no_d].
  destruct (Ascii.eqb c underscore) eqn:Eu.
  - apply Ascii.eqb_eq in Eu. subst c. destruct b; [discriminate|].
    now rewrite (IH _ _ _ _ H).
  - destruct (digit_of c) as [d|] eqn:Ed; [|discriminate].
    rewrite (IH _ _ _ _ H), andb_true_r.
    destruct (Ascii.eqb c "d") eqn:E; [|reflexivity].
    apply Ascii.eqb_eq in E. subst c. discriminate Ed.
Qed.

Lemma int_unsigned_no_d (s : string) (v : Z) :
  int_unsigned s = Some v -> no_d s = true.
Proof.
  unfold int_unsigned. destruct (int_digits 0 0 true s) as [[v' n]|] eqn:E;
    [|discriminate].
  intros _. exact (int_digits_no_d _ _ _ _ _ E).
Qed.

(** A text that [int] converts has no letter d in it. *)
Lemma int_no_d (s : string) (v : Z) : int s = Some v -> no_d s = true.
Proof.
  unfold int, strip. intros H.
  apply no_d_lstrip, no_d_rstrip.
  destruct (rstrip (lstrip s)) as [|c r]; [discriminate|].
  destruct (Ascii.eqb c (ascii_of_nat 45)) eqn:E1.
  - apply Ascii.eqb_eq in E1. subst c.
    destruct (int_unsigned r) eqn:E; [|discriminate].
    cbn [no_d]. now rewrite (int_unsigned_no_d _ _ E).
  - destruct (Ascii.eqb c (ascii_of_nat 43)) eqn:E2.
    + apply Ascii.eqb_eq in E2. subst c.
      cbn [no_d]. now rewrite (int_unsigned_no_d _ _ H).
    + exact (int_unsigned_no_d _ _ H).
Qed.

(** Removing "dBm" from a text without the letter d, followed by "dBm",
    gives the text back. *)
Lemma replace_dBm_suffix (p : string) :
  no_d p = true -> replace "dBm" "" (p ++ "dBm") = p.
Proof.
  unfold replace. induction p as [|c p IH]; intros H; [reflexivity|].
  cbn [no_d] in H. apply andb_true_iff in H as [Hc Hp].
  change (String c p ++ "dBm") with (String c (p ++ "dBm")).
  cbn [replace_from].
  assert (prefix "dBm" (String c (p ++ "dBm")) = false) as ->.
  { cbn [prefix]. destruct (ascii_dec "d" c) as [<-|]; [discriminate Hc|reflexivity]. }
  now rewrite IH.
Qed.

(** The reading of a part "<integer>dBm" is the magnitude of the integer. *)
Lemma dBm_value_suffix (p : string) (n : Z) :
  int p = Some n -> dBm_value (p ++ "dBm") = Some (Z.abs n).
Proof.
  intros H. unfold dBm_value.
  rewrite (contains_app_r "dBm" p "dBm" eq_refl).
  rewrite (replace_dBm_suffix p (int_no_d _ _ H)), int_strip, H.
  reflexivity.
Qed.

Lemma signal_loop_step (signal : Z) (part : string) (rest : list string) :
  signal_loop signal (part :: rest)
  = signal_loop (match dBm_value part with Some v => v | None => signal end)
                rest.
Proof.
  unfold dBm_value. cbn [signal_loop].
  destruct (contains "dBm" part); [|reflexivity].
  now destruct (int (strip (replace "dBm" "" part))).
Qed.

Lemma signal_loop_none (signal : Z) (parts : list string) :
  (forall q, In q parts -> dBm_value q = None) ->
  signal_loop signal parts = signal.
Proof.
  revert signal; induction parts as [|q parts IH]; intros signal H;
    [reflexivity|].
  rewrite signal_loop_step, (H q (or_introl eq_refl)).
  apply IH. intros q' Hq'. apply H. now right.
Qed.

(** The last part with a reading decides the signal strength. *)
Lemma signal_loop_last (signal v : Z) (pre post : list string) (part : string) :
  dBm_value part = Some v ->
  (forall q, In q post -> dBm_value q = None) ->
  signal_loop signal (pre ++ part :: post) = v.
Proof.
  revert signal; induction pre as [|q pre IH]; intros signal Hv Hpost.
  - simpl app. rewrite signal_loop_step, Hv. now apply signal_loop_none.
  - change ((q :: pre) ++ part :: post)%list with (q :: (pre ++ part :: post))%list.
    rewrite signal_loop_step. now apply IH.
Qed.

(** ** The network table *)

Lemma kept_network_parsed (output line : string) :
  In line (network_rows output) -> network_row_kept line = true ->
  In (network_of_row line) (parse_networks output).
Proof.
  intros Hin Hk. rewrite parse_networks_filter.
  apply in_map, filter_In. now split.
Qed.

Lemma contains_token (sub line t : string) :
  In t (split_ws line) -> contains sub line = false -> contains sub t = false.
Proof.
  intros Ht Hl. destruct (contains sub t) eqn:E; [|reflexivity].
  destruct (split_ws_substring _ _ Ht) as (pre & post & ->).
  rewrite <- Hl. symmetry.
  now apply contains_app_r, contains_app_l.
Qed.

(** C7, as the code has it: in a row that is kept, the signal strength is
    the magnitude read from the last token that contains "dBm" and, with
    "dBm" removed, converts to an integer; so when that token is an integer
    followed by "dBm" it is the absolute value of the integer; it is 50 when
    no token contains "dBm" or none of those converts. *)
Theorem signal_strength_last_reading (output line : string) :
  In line (network_rows output) -> network_row_kept line = true ->
  In (network_of_row line) (parse_networks output)
  /\ (forall pre part post v,
        split_ws line = (pre ++ part :: post)%list ->
        dBm_value part = Some v ->
        (forall q, In q post -> dBm_value q = None) ->
        signal_strength (network_of_row line) = v)
  /\ (forall pre p post n,
        split_ws line = (pre ++ (p ++ "dBm")%string :: post)%list ->
        int p = Some n ->
        (forall q, In q post -> dBm_value q = None) ->
        signal_strength (network_of_row line) = Z.abs n)
  /\ ((forall q, In q (split_ws line) -> dBm_value q = None) ->
      signal_strength (network_of_row line) = 50%Z)
  /\ ((forall q, In q (split_ws line) -> contains "dBm" q = false) ->
      signal_strength (network_of_row line) = 50%Z).
Proof.
  intros Hin Hk. split; [now apply kept_network_parsed|].
  cbn [network_of_row signal_strength]. repeat split.
  - intros pre part post v -> Hv Hpost. now apply signal_loop_last.
  - intros pre p post n -> Hn Hpost.
    apply signal_loop_last; [now apply dBm_value_suffix | assumption].
  - intros H. now apply signal_loop_none.
  - intros H. apply signal_loop_none. intros q Hq.
    unfold dBm_value. now rewrite (H q Hq).
Qed.

Lemma signal_strength_last_reading_witness :
  signal_strength (network_of_row "OfficeWiFi  PSK  -55dBm") = 55%Z
  /\ signal_strength (network_of_row "Cafe  open") = 50%Z.
Proof.
  split.
  - destruct (signal_strength_last_reading
                (with_net_header "OfficeWiFi  PSK  -55dBm")
                "OfficeWiFi  PSK  -55dBm") as (_ & _ & H & _).
    + vm_compute. now left.
    + reflexivity.
    + apply (H ["OfficeWiFi"; "PSK"] "-55" [] (-55)%Z);
        [reflexivity | reflexivity | intros q []].
  - destruct (signal_strength_last_reading
                (with_net_header "Cafe  open") "Cafe  open")
      as (_ & _ & _ & _ & H).
    + vm_compute. now left.
    + reflexivity.
    + apply H. intros q [<-|[<-|[]]]; reflexivity.
Defined.

(** C7, as stated, fails on a row with two readings: the token "-67dBm"
    contains "dBm" and "-67" is a signed integer, yet the signal strength is
    30, read from the later token. *)
Lemma two_readings_last_wins :
  network_row_kept "Net  -67dBm  -30dBm" = true
  /\ parse_networks (with_net_header "Net  -67dBm  -30dBm")
     = [network_of_row "Net  -67dBm  -30dBm"]
  /\ In "-67dBm" (split_ws "Net  -67dBm  -30dBm")
  /\ contains "dBm" "-67dBm" = true
  /\ int "-67" = Some (-67)%Z
  /\ signal_strength (network_of_row "Net  -67dBm  -30dBm") = 30%Z
  /\ signal_strength (network_of_row "Net  -67dBm  -30dBm") <> Z.abs (-67).
Proof.
  repeat split; try reflexivity.
  - vm_compute. right. now left.
  - vm_compute. discriminate.
Qed.

(** C10, as the code has it: the networks returned are those of the rows
    after the four header lines that are not blank and do not start with a
    dash, one network per such row, in order; its ssid is the first token of
    the row however few tokens there are; a one-token row that contains none
    of "PSK", "802.1X", ">" and "dBm" gives security "open", signal strength
    50 and connected false. *)
Theorem every_kept_row_is_a_network (output : string) :
  parse_networks output
  = map network_of_row (filter network_row_kept (network_rows output))
  /\ forall line,
      In line (network_rows output) -> network_row_kept line = true ->
      In (network_of_row line) (parse_networks output)
      /\ exists t ts,
          split_ws line = t :: ts
          /\ ssid (network_of_row line) = t
          /\ (ts = [] ->
              contains "PSK" line = false ->
              contains "802.1X" line = false ->
              contains ">" line = false ->
              contains "dBm" line = false ->
              security (network_of_row line) = "open"
              /\ signal_strength (network_of_row line) = 50%Z
              /\ net_connected (network_of_row line) = false).
Proof.
  split; [apply parse_networks_filter|].
  intros line Hin Hk. split; [now apply kept_network_parsed|].
  pose proof Hk as Hk'. unfold network_row_kept in Hk'.
  apply andb_true_iff in Hk' as [Hs _]. rewrite strip_truthy in Hs.
  destruct (split_ws line) as [|t ts] eqn:E; [discriminate|].
  exists t, ts. split; [reflexivity|].
  split; [cbn [network_of_row ssid]; now rewrite E|].
  intros -> Hpsk H8021x Hgt HdBm.
  cbn [network_of_row security signal_strength net_connected].
  rewrite Hpsk, H8021x, Hgt, E. repeat split.
  apply signal_loop_none. intros q [<-|[]].
  unfold dBm_value.
  rewrite (contains_token "dBm" line t); [reflexivity| |assumption].
  rewrite E. now left.
Qed.

(** C10, as stated, fails on the one-token row "CorpPSK": it gives one
    network, whose security is "secured". *)
Lemma one_token_row_secured :
  split_ws "CorpPSK" = ["CorpPSK"]
  /\ parse_networks (with_net_header "CorpPSK")
     = [ {| ssid := "CorpPSK"; security := "secured"; signal_strength := 50;
            net_connected := false; known := false; frequency := "" |} ]
  /\ security (network_of_row "CorpPSK") <> "open".
Proof. repeat split; vm_compute; discriminate. Qed.

(** ** The status projection *)

Lemma status_loop_app (pre post : list NetworkDevice) :
  (forall d, In d pre -> connected d = false) ->
  status_loop (pre ++ post) = status_loop post.
Proof.
  induction pre as [|d pre IH]; intros H; [reflexivity|].
  simpl. rewrite (H d (or_introl eq_refl)).
  apply IH. intros d' Hd'. apply H. now right.
Qed.

(** C8: the status is that of the first device, in stored order, whose
    [connected] field is true, made of its network and its name; it is
    "disconnected" when no device is connected. *)
Theorem update_status_first_connected (mgr : NetworkManager) :
  (forall pre dev post,
      devices mgr = (pre ++ dev :: post)%list ->
      (forall d, In d pre -> connected d = false) ->
      connected dev = true ->
      update_status mgr
      = {| connection_status :=
             "connected to " ++ network dev ++ " on " ++ name dev;
           active_connection := network dev ++ " on " ++ name dev |})
  /\ ((forall d, In d (devices mgr) -> connected d = false) ->
      update_status mgr
      = {| connection_status := "disconnected"; active_connection := "" |}).
Proof.
  unfold update_status. split.
  - intros pre dev post -> Hpre Hdev.
    rewrite (status_loop_app pre _ Hpre). simpl. now rewrite Hdev.
  - intros H. rewrite <- (app_nil_r (devices mgr)).
    now rewrite (status_loop_app _ [] H).
Qed.

Lemma update_status_first_connected_witness :
  update_status {| devices := [eth0; wlan0_up; wlan0_idle]; networks := [] |}
  = {| connection_status := "connected to HomeNet on wlan0";
       active_connection := "HomeNet on wlan0" |}
  /\ update_status {| devices := [eth0; wlan0_idle]; networks := [] |}
     = {| connection_status := "disconnected"; active_connection := "" |}.
Proof.
  split.
  - apply (proj1 (update_status_first_connected
                    {| devices := [eth0; wlan0_up; wlan0_idle];
                       networks := [] |})
             [eth0] wlan0_up [wlan0_idle]).
    + reflexivity.
    + intros d [<-|[]]. reflexivity.
    + reflexivity.
  - apply (proj2 (update_status_first_connected
                    {| devices := [eth0; wlan0_idle]; networks := [] |})).
    intros d [<-|[<-|[]]]; reflexivity.
Defined.

(** ** The operations of the manager *)

Lemma verified_false (ssid : string) (devs : list NetworkDevice) :
  (forall dev, In dev devs -> connected dev = true -> network dev <> ssid) ->
  verified ssid devs = false.
Proof.
  induction devs as [|dev devs IH]; intros H; [reflexivity|].
  simpl. destruct (connected dev) eqn:Hc; simpl.
  - destruct (String.eqb_spec (network dev) ssid) as [E|_].
    + exfalso. exact (H dev (or_introl eq_refl) Hc E).
    + apply IH. intros d Hd. apply H. now right.
  - apply IH. intros d Hd. apply H. now right.
Qed.

Lemma pick_station_none (device : option string) (devs : list NetworkDevice) :
  (forall dev, In dev devs -> type dev = "station" -> powered dev = false) ->
  pick_station device devs = device.
Proof.
  induction devs as [|dev devs IH]; intros H; [reflexivity|].
  simpl. destruct (String.eqb_spec (type dev) "station") as [E|_]; simpl.
  - rewrite (H dev (or_introl eq_refl) E). apply IH.
    intros d Hd. apply H. now right.
  - apply IH. intros d Hd. apply H. now right.
Qed.

Section ManagerFacts.

Variable World : Type.
Variable subprocess_run :
  list string -> option string -> World -> completion * World.
Variable sleep : Z -> World -> World.
Variable logger_error : string -> World -> World.

Local Abbreviation run := (run_command subprocess_run logger_error).
Local Abbreviation refresh := (get_devices subprocess_run logger_error).
Local Abbreviation scan := (scan_networks subprocess_run sleep logger_error).
Local Abbreviation connect :=
  (connect_to_network subprocess_run sleep logger_error).

(** The executor reads the manager object and never writes it. *)
Lemma run_command_self (cmd : list string) (input_text : option string)
    (mgr : NetworkManager) (w : World) :
  fst (snd (run cmd input_text (mgr, w))) = mgr.
Proof.
  unfold run_command. simpl.
  now destruct (subprocess_run cmd input_text w) as [[rc out|e] w'].
Qed.

(** Exit status 0 is success, with the captured output. *)
Lemma run_command_exit_0 (cmd : list string) (input_text : option string)
    (mgr : NetworkManager) (w w' : World) (output : string) :
  subprocess_run cmd input_text w = (Completed 0 output, w') ->
  run cmd input_text (mgr, w) = ((true, output), (mgr, w')).
Proof. intros H. unfold run_command. simpl. now rewrite H. Qed.

(** C1, as the code has it: when the executor reports failure for the
    device-list command, [get_devices] stores the empty list in place of the
    prior device list and returns the empty list; the network list stays. *)
Theorem get_devices_failure_empties_store (mgr : NetworkManager) (w : World) :
  fst (fst (run ["iwctl"; "device"; "list"] None (mgr, w))) = false ->
  refresh (mgr, w)
  = ([], ({| devices := []; networks := networks mgr |},
          snd (snd (run ["iwctl"; "device"; "list"] None (mgr, w))))).
Proof.
  intros H. unfold get_devices, bind.
  pose proof (run_command_self ["iwctl"; "device"; "list"] None mgr w) as Hs.
  destruct (run ["iwctl"; "device"; "list"] None (mgr, w))
    as [[success output] [mgr' w']].
  simpl in H, Hs. subst. reflexivity.
Qed.

(** C4: when the connect command exits with status 0 and the device list
    read back after the wait has no connected device on [ssid], the
    operation fails with "Connection verification failed"; that is never the
    message of a connect command that itself failed, which is "Connection
    failed: " followed by the command's output. *)
Theorem connect_verification_failure (mgr mgr' : NetworkManager)
    (w w1 w2 : World) (device ssid output : string)
    (password : option string) (devs : list NetworkDevice) :
  subprocess_run ["iwctl"; "station"; device; "connect"; ssid] password w
  = (Completed 0 output, w1) ->
  refresh (mgr, sleep 2 w1) = (devs, (mgr', w2)) ->
  (forall dev, In dev (devices mgr') ->
               connected dev = true -> network dev <> ssid) ->
  connect device ssid password (mgr, w)
  = ((false, "Connection verification failed"), (mgr', w2))
  /\ forall mgr0 w0 device0 ssid0 password0,
      fst (fst (run ["iwctl"; "station"; device0; "connect"; ssid0]
                    password0 (mgr0, w0))) = false ->
      fst (connect device0 ssid0 password0 (mgr0, w0))
      = (false,
         "Connection failed: "
         ++ snd (fst (run ["iwctl"; "station"; device0; "connect"; ssid0]
                          password0 (mgr0, w0))))
      /\ snd (fst (connect device0 ssid0 password0 (mgr0, w0)))
         <> "Connection verification failed".
Proof.
  intros Hrun Hrefresh Hnone. split.
  - unfold connect_to_network, bind.
    rewrite (run_command_exit_0 _ _ mgr w w1 output Hrun).
    unfold time_sleep. cbn [fst snd].
    rewrite Hrefresh. unfold get_self. cbn [fst snd].
    now rewrite (verified_false ssid (devices mgr') Hnone).
  - intros mgr0 w0 device0 ssid0 password0 Hfail.
    unfold connect_to_network, bind.
    destruct (run ["iwctl"; "station"; device0; "connect"; ssid0]
                  password0 (mgr0, w0)) as [[success out] st].
    simpl in Hfail. subst success. simpl. split; [reflexivity|].
    discriminate.
Qed.

(** C5, as the code has it: with no device name given and no powered
    station in the stored device list, [scan_networks] returns the empty
    list of networks, runs no command and leaves the store as it was. *)
Theorem scan_without_station_returns_empty (mgr : NetworkManager) (w : World)
    (device : option string) :
  falsy device = true ->
  (forall dev, In dev (devices mgr) ->
               type dev = "station" -> powered dev = false) ->
  scan device (mgr, w) = ([], (mgr, w)).
Proof.
  intros Hf Hnone. unfold scan_networks, bind, get_self. cbn [fst snd].
  assert (select_device device (devices mgr) = device) as ->.
  { unfold select_device. rewrite (pick_station_none device _ Hnone).
    now destruct (_ && _). }
  destruct device as [d|]; [|reflexivity].
  simpl in Hf. now rewrite Hf.
Qed.

(** C9, as the code has it: once a device is selected, whatever the
    scan-trigger command returned, failure included, [scan_networks] sleeps
    and runs the network-list command; it stores and returns the networks
    parsed from that command's output when the command succeeds, and the
    empty list, with the output left unparsed, when it fails. *)
Theorem scan_ignores_trigger_result (mgr : NetworkManager) (w w1 w2 : World)
    (device : option string) (dev output : string)
    (trigger_ok list_ok : bool) (trigger_output : string) :
  select_device device (devices mgr) = Some dev ->
  truthy dev = true ->
  run ["iwctl"; "station"; dev; "scan"] None (mgr, w)
  = ((trigger_ok, trigger_output), (mgr, w1)) ->
  run ["iwctl"; "station"; dev; "get-networks"] None (mgr, sleep 2 w1)
  = ((list_ok, output), (mgr, w2)) ->
  scan device (mgr, w)
  = ((if list_ok then parse_networks output else []),
     ({| devices := devices mgr;
         networks := if list_ok then parse_networks output else [] |}, w2)).
Proof.
  intros Hsel Hdev Htrigger Hlist.
  unfold scan_networks, bind, get_self. cbn [fst snd].
  rewrite Hsel, Hdev. cbn [negb]. rewrite Htrigger.
  unfold time_sleep. cbn [fst snd]. rewrite Hlist. reflexivity.
Qed.

End ManagerFacts.

(** ** The operations on scripted worlds *)

Lemma get_devices_failure_empties_store_witness :
  script_get_devices (mgr_home, script [Completed 1 "Operation failed"])
  = ([], ({| devices := []; networks := networks mgr_home |},
          {| answers := [];
             trace := [Ran ["iwctl"; "device"; "list"] None] |})).
Proof.
  apply (get_devices_failure_empties_store Script script_run script_log
           mgr_home (script [Completed 1 "Operation failed"])).
  reflexivity.
Defined.

(** C1, as stated, fails when the manager holds a device and the
    device-list command exits with status 1: the executor reports failure and
    the stored device list, [wlan0_up] before the call, is empty after it. *)
Lemma get_devices_failure_loses_devices :
  fst (fst (run_command script_run script_log ["iwctl"; "device"; "list"] None
              (mgr_home, script [Completed 1 "Operation failed"]))) = false
  /\ devices mgr_home = [wlan0_up]
  /\ devices (fst (snd (script_get_devices
                          (mgr_home, script [Completed 1 "Operation failed"]))))
     = []
  /\ devices (fst (snd (script_get_devices
                          (mgr_home, script [Completed 1 "Operation failed"]))))
     <> devices mgr_home.
Proof. repeat split. discriminate. Qed.

Lemma connect_verification_failure_witness :
  script_connect "wlan0" "OfficeWiFi" (Some "secret")
    (mgr_home, script [Completed 0 ""; Completed 0 off_table])
  = ((false, "Connection verification failed"),
     ({| devices := [device_of_row "wlan0  station  off"];
         networks := networks mgr_home |},
      {| answers := [];
         trace := [Ran ["iwctl"; "station"; "wlan0"; "connect"; "OfficeWiFi"]
                       (Some "secret");
                   Slept 2;
                   Ran ["iwctl"; "device"; "list"] None] |})).
Proof.
  refine (proj1 (connect_verification_failure Script script_run script_sleep
                   script_log mgr_home _
                   (script [Completed 0 ""; Completed 0 off_table]) _ _
                   "wlan0" "OfficeWiFi" "" (Some "secret")
                   [device_of_row "wlan0  station  off"] _ _ _)).
  - reflexivity.
  - reflexivity.
  - intros dev [<-|[]] H. discriminate H.
Defined.

Lemma scan_without_station_returns_empty_witness :
  script_scan_networks None (mgr_wired, script [])
  = ([], (mgr_wired, script [])).
Proof.
  apply (scan_without_station_returns_empty Script script_run script_sleep
           script_log mgr_wired (script []) None).
  - reflexivity.
  - intros dev [<-|[]] H. discriminate H.
Defined.

(** C5, as stated, fails on a manager without a powered station: the scan
    returns the empty list of networks and says nothing else, which is also
    what a scan returns whose commands succeeded and listed no network. *)
Lemma scan_without_station_is_empty_result :
  fst (script_scan_networks None (mgr_wired, script [])) = []
  /\ fst (script_scan_networks (Some "wlan0")
            (mgr_wired,
             script [Completed 0 ""; Completed 0 (with_net_header "")]))
     = []
  /\ fst (script_scan_networks None (mgr_wired, script []))
     = fst (script_scan_networks (Some "wlan0")
              (mgr_wired,
               script [Completed 0 ""; Completed 0 (with_net_header "")])).
Proof. repeat split. Qed.

Lemma scan_ignores_trigger_result_witness :
  script_scan_networks None
    (mgr_home,
     script [Completed 1 "Operation failed";
             Completed 0 (with_net_header "OfficeWiFi  PSK  -55dBm")])
  = ([ {| ssid := "OfficeWiFi"; security := "secured"; signal_strength := 55;
          net_connected := false; known := false; frequency := "" |} ],
     ({| devices := devices mgr_home;
         networks :=
           [ {| ssid := "OfficeWiFi"; security := "secured";
                signal_strength := 55; net_connected := false;
                known := false; frequency := "" |} ] |},
      {| answers := [];
         trace := [Ran ["iwctl"; "station"; "wlan0"; "scan"] None;
                   Slept 2;
                   Ran ["iwctl"; "station"; "wlan0"; "get-networks"] None]
      |})).
Proof.
  apply (scan_ignores_trigger_result Script script_run script_sleep script_log
           mgr_home
           (script [Completed 1 "Operation failed";
                    Completed 0 (with_net_header "OfficeWiFi  PSK  -55dBm")])
           {| answers :=
                [Completed 0 (with_net_header "OfficeWiFi  PSK  -55dBm")];
              trace := [Ran ["iwctl"; "station"; "wlan0"; "scan"] None] |}
           {| answers := [];
              trace := [Ran ["iwctl"; "station"; "wlan0"; "scan"] None;
                        Slept 2;
                        Ran ["iwctl"; "station"; "wlan0"; "get-networks"]
                            None] |}
           None "wlan0" (with_net_header "OfficeWiFi  PSK  -55dBm")
           false true "Operation failed");
    reflexivity.
Defined.

(** C9, as stated, fails when the network-list command fails too: with both
    commands exiting with status 1 the list query is still issued after the
    failed trigger, but its output, a table with one network, is not parsed:
    the stored network list becomes empty. *)
Lemma scan_failed_listing_not_parsed :
  fst (fst (run_command script_run script_log
              ["iwctl"; "station"; "wlan0"; "scan"] None
              (mgr_home,
               script [Completed 1 "Operation failed";
                       Completed 1
                         (with_net_header "OfficeWiFi  PSK  -55dBm")])))
  = false
  /\ trace (snd (snd (script_scan_networks None
                        (mgr_home,
                         script [Completed 1 "Operation failed";
                                 Completed 1
                                   (with_net_header
                                      "OfficeWiFi  PSK  -55dBm")]))))
     = [Ran ["iwctl"; "station"; "wlan0"; "scan"] None;
        Slept 2;
        Ran ["iwctl"; "station"; "wlan0"; "get-networks"] None]
  /\ parse_networks (with_net_header "OfficeWiFi  PSK  -55dBm")
     = [network_of_row "OfficeWiFi  PSK  -55dBm"]
  /\ networks (fst (snd (script_scan_networks None
                           (mgr_home,
                            script [Completed 1 "Operation failed";
                                    Completed 1
                                      (with_net_header
                                         "OfficeWiFi  PSK  -55dBm")]))))
     = []
  /\ networks (fst (snd (script_scan_networks None
                           (mgr_home,
                            script [Completed 1 "Operation failed";
                                    Completed 1
                                      (with_net_header
                                         "OfficeWiFi  PSK  -55dBm")]))))
     <> parse_networks (with_net_header "OfficeWiFi  PSK  -55dBm").
Proof. repeat split. discriminate. Qed.

Lemma every_kept_row_is_a_network_witness :
  parse_networks (with_net_header "HomeNet")
  = [ {| ssid := "HomeNet"; security := "open"; signal_strength := 50;
         net_connected := false; known := false; frequency := "" |} ]
  /\ security (network_of_row "HomeNet") = "open"
  /\ signal_strength (network_of_row "HomeNet") = 50%Z
  /\ net_connected (network_of_row "HomeNet") = false.
Proof.
  destruct (every_kept_row_is_a_network (with_net_header "HomeNet"))
    as [Heq Hrow].
  split; [rewrite Heq; reflexivity|].
  destruct (Hrow "HomeNet") as (_ & t & ts & Hsplit & _ & Hone).
  - vm_compute. now left.
  - reflexivity.
  - apply Hone; [|reflexivity..].
    vm_compute in Hsplit. now inversion Hsplit.
Defined.

(** ** Further properties of the manager's operations *)

Lemma lookup_device_In (device : string) (devs : list NetworkDevice)
    (dev : NetworkDevice) :
  lookup_device device devs = Some dev -> In dev devs /\ name dev = device.
Proof.
  induction devs as [|d devs IH]; [discriminate|].
  simpl. destruct (String.eqb_spec (name d) device) as [E|_].
  - intros [= <-]. split; [now left | assumption].
  - intros H. destruct (IH H) as [Hin Hn]. split; [now right | assumption].
Qed.

Lemma lookup_device_absent (device : string) (devs : list NetworkDevice) :
  (forall dev, In dev devs -> name dev <> device) ->
  lookup_device device devs = None.
Proof.
  induction devs as [|d devs IH]; intros H; [reflexivity|].
  simpl. destruct (String.eqb_spec (name d) device) as [E|_].
  - exfalso. exact (H d (or_introl eq_refl) E).
  - apply IH. intros dev Hd. apply H. now right.
Qed.

Lemma verified_true (ssid : string) (devs : list NetworkDevice) :
  verified ssid devs = true ->
  exists dev, In dev devs /\ connected dev = true /\ network dev = ssid.
Proof.
  induction devs as [|d devs IH]; [discriminate|].
  simpl. destruct (connected d) eqn:Hc; simpl.
  - destruct (String.eqb_spec (network d) ssid) as [E|_].
    + intros _. exists d. repeat split; [now left | assumption..].
    + intros H. destruct (IH H) as (dev & Hin & H1 & H2).
      exists dev. repeat split; [now right | assumption..].
  - intros H. destruct (IH H) as (dev & Hin & H1 & H2).
    exists dev. repeat split; [now right | assumption..].
Qed.

Lemma verified_of_In (ssid : string) (devs : list NetworkDevice)
    (dev : NetworkDevice) :
  In dev devs -> connected dev = true -> network dev = ssid ->
  verified ssid devs = true.
Proof.
  induction devs as [|d devs IH]; intros Hin Hc Hn; [destruct Hin|].
  simpl. destruct Hin as [->|Hin].
  - rewrite Hc, Hn, String.eqb_refl. reflexivity.
  - destruct (connected d && (network d =? ssid)); [reflexivity|].
    now apply IH.
Qed.

(** The status loop stops at a connected device whenever there is one. *)
Lemma status_loop_connected (devs : list NetworkDevice) :
  (exists dev, In dev devs /\ connected dev = true) ->
  exists dev, In dev devs /\ connected dev = true
              /\ status_loop devs
                 = (true, network dev ++ " on " ++ name dev).
Proof.
  induction devs as [|d devs IH]; intros (dev & Hin & Hc); [destruct Hin|].
  simpl. destruct (connected d) eqn:Hd.
  - exists d. repeat split; [now left | assumption].
  - destruct Hin as [->|Hin]; [congruence|].
    destruct (IH (ex_intro _ dev (conj Hin Hc))) as (dev' & Hin' & Hc' & E).
    exists dev'. repeat split; [now right | assumption..].
Qed.

(** A kept row whose second token is "station" reads as powered. *)
Lemma station_row_powered (line : string) :
  device_row_kept line = true ->
  type (device_of_row line) = "station" ->
  powered (device_of_row line) = true.
Proof.
  intros Hk Hty. apply contains_iff.
  unfold device_row_kept, three_tokens in Hk.
  apply andb_true_iff in Hk as [_ Hk]. apply Nat.leb_le in Hk.
  assert (In "station" (split_ws line)) as Ht.
  { simpl in Hty. rewrite <- Hty. apply nth_In. lia. }
  destruct (split_ws_substring _ _ Ht) as (pre & post & ->).
  exists (pre ++ "stati"), post. now rewrite !append_assoc.
Qed.

Lemma parse_devices_In (output : string) (d : NetworkDevice) :
  In d (parse_devices output) ->
  exists line, In line (device_rows output)
               /\ device_row_kept line = true /\ d = device_of_row line.
Proof.
  rewrite parse_devices_filter. intros H.
  apply in_map_iff in H as (line & <- & H).
  apply filter_In in H as [Hin Hk]. now exists line.
Qed.

Lemma parse_networks_In (output : string) (n : WirelessNetwork) :
  In n (parse_networks output) ->
  exists line, In line (network_rows output)
               /\ network_row_kept line = true /\ n = network_of_row line.
Proof.
  rewrite parse_networks_filter. intros H.
  apply in_map_iff in H as (line & <- & H).
  apply filter_In in H as [Hin Hk]. now exists line.
Qed.

Section ManagerMore.

Variable World : Type.
Variable subprocess_run :
  list string -> option string -> World -> completion * World.
Variable sleep : Z -> World -> World.
Variable logger_error : string -> World -> World.

Local Abbreviation run := (run_command subprocess_run logger_error).
Local Abbreviation refresh := (get_devices subprocess_run logger_error).
Local Abbreviation scan := (scan_networks subprocess_run sleep logger_error).
Local Abbreviation connect :=
  (connect_to_network subprocess_run sleep logger_error).
Local Abbreviation disconnect :=
  (disconnect_network subprocess_run logger_error).
Local Abbreviation toggle :=
  (toggle_device_power subprocess_run logger_error).

Lemma run_command_state (cmd : list string) (input_text : option string)
    (mgr : NetworkManager) (w : World) :
  snd (run cmd input_text (mgr, w))
  = (mgr, snd (snd (run cmd input_text (mgr, w)))).
Proof.
  unfold run_command. simpl.
  now destruct (subprocess_run cmd input_text w) as [[rc out|e] w'].
Qed.

(** What [get_devices] returns and stores, in terms of the executor's
    answer. *)
Lemma get_devices_result (mgr : NetworkManager) (w : World) :
  let r := run ["iwctl"; "device"; "list"] None (mgr, w) in
  let devs := if fst (fst r) then parse_devices (snd (fst r)) else [] in
  refresh (mgr, w)
  = (devs, ({| devices := devs; networks := networks mgr |}, snd (snd r))).
Proof.
  cbv zeta. unfold get_devices, bind.
  pose proof (run_command_state ["iwctl"; "device"; "list"] None mgr w) as Hs.
  destruct (run ["iwctl"; "device"; "list"] None (mgr, w))
    as [[success output] [mgr' w']].
  simpl in Hs. injection Hs as ->. reflexivity.
Qed.

(** The executor reports success exactly when the process completed
    with exit status 0, and it never writes the manager's lists. *)
Theorem run_command_success_iff (cmd : list string)
    (input_text : option string) (mgr : NetworkManager) (w : World) :
  fst (snd (run cmd input_text (mgr, w))) = mgr
  /\ (fst (fst (run cmd input_text (mgr, w))) = true
      <-> exists output,
          fst (subprocess_run cmd input_text w) = Completed 0 output
          /\ snd (fst (run cmd input_text (mgr, w))) = output).
Proof.
  unfold run_command. simpl.
  destruct (subprocess_run cmd input_text w) as [[rc out|e] w']; simpl.
  - split; [reflexivity|]. split.
    + intros H. apply Z.eqb_eq in H. subst rc. now exists out.
    + intros (output & [= -> _] & _). reflexivity.
  - split; [reflexivity|]. split; [discriminate|].
    intros (output & H & _). discriminate H.
Qed.

(** X1: refreshing does not accumulate.  When the device-list command gives
    the same answer a second time, the second refresh returns the same
    devices and leaves the store exactly as the first refresh left it. *)
Theorem refresh_twice_same_store (mgr : NetworkManager) (w w' : World) :
  fst (run ["iwctl"; "device"; "list"] None
         (fst (snd (refresh (mgr, w))), w'))
  = fst (run ["iwctl"; "device"; "list"] None (mgr, w)) ->
  fst (refresh (fst (snd (refresh (mgr, w))), w')) = fst (refresh (mgr, w))
  /\ fst (snd (refresh (fst (snd (refresh (mgr, w))), w')))
     = fst (snd (refresh (mgr, w))).
Proof.
  intros H. rewrite (get_devices_result _ w'), H.
  rewrite (get_devices_result mgr w). cbn [fst snd networks]. now split.
Qed.

(** X2: each operation writes at most its own list.  A refresh keeps the
    network list, a scan keeps the device list, a connect keeps the network
    list, and disconnecting or toggling power writes neither list. *)
Theorem operations_frame (mgr : NetworkManager) (w : World)
    (device : option string) (dev ssid : string)
    (password : option string) :
  networks (fst (snd (refresh (mgr, w)))) = networks mgr
  /\ devices (fst (snd (scan device (mgr, w)))) = devices mgr
  /\ networks (fst (snd (connect dev ssid password (mgr, w)))) = networks mgr
  /\ fst (snd (disconnect dev (mgr, w))) = mgr
  /\ fst (snd (toggle dev (mgr, w))) = mgr.
Proof.
  split; [now rewrite get_devices_result|]. split.
  { unfold scan_networks, bind, get_self. cbn [fst snd].
    destruct (select_device device (devices mgr)) as [d|]; [|reflexivity].
    destruct (truthy d); [|reflexivity]. cbn [negb].
    rewrite (surjective_pairing (run ["iwctl"; "station"; d; "scan"] None _)).
    rewrite run_command_state. unfold time_sleep. cbn [fst snd].
    match goal with |- context [run ?c None (mgr, ?x)] =>
      rewrite (surjective_pairing (run c None (mgr, x)));
      rewrite (run_command_state c None mgr x);
      destruct (fst (run c None (mgr, x))) as [ok out]
    end.
    reflexivity. }
  split.
  { unfold connect_to_network, bind.
    rewrite (surjective_pairing
               (run ["iwctl"; "station"; dev; "connect"; ssid] password _)).
    rewrite run_command_state.
    destruct (fst (run ["iwctl"; "station"; dev; "connect"; ssid] password
                     (mgr, w))) as [ok out].
    destruct ok; [|reflexivity].
    unfold time_sleep. cbn [fst snd]. rewrite get_devices_result.
    unfold get_self. cbn [fst snd].
    now destruct (verified ssid _). }
  split.
  { unfold disconnect_network, bind.
    rewrite (surjective_pairing
               (run ["iwctl"; "station"; dev; "disconnect"] None _)).
    rewrite run_command_state.
    now destruct (fst (run ["iwctl"; "station"; dev; "disconnect"] None
                         (mgr, w))) as [ok out]. }
  unfold toggle_device_power, bind, get_self. cbn [fst snd].
  destruct (lookup_device dev (devices mgr)) as [d|]; [|reflexivity].
  match goal with |- context [run ?c None (mgr, w)] =>
    rewrite (surjective_pairing (run c None (mgr, w)));
    rewrite (run_command_state c None mgr w);
    destruct (fst (run c None (mgr, w))) as [ok out]
  end.
  reflexivity.
Qed.

(** X3: when the network-list command fails, the scan stores the empty list
    over the prior network list and returns it, whatever the scan-trigger
    command did. *)
Theorem scan_list_failure_empties_networks (mgr : NetworkManager)
    (w : World) (device : option string) (dev : string) :
  select_device device (devices mgr) = Some dev ->
  truthy dev = true ->
  fst (fst (run ["iwctl"; "station"; dev; "get-networks"] None
              (mgr, sleep 2 (snd (snd (run ["iwctl"; "station"; dev; "scan"]
                                           None (mgr, w)))))))
  = false ->
  fst (scan device (mgr, w)) = []
  /\ fst (snd (scan device (mgr, w)))
     = {| devices := devices mgr; networks := [] |}.
Proof.
  intros Hsel Hdev Hfail.
  unfold scan_networks, bind, get_self. cbn [fst snd].
  rewrite Hsel, Hdev. cbn [negb].
  rewrite (surjective_pairing (run ["iwctl"; "station"; dev; "scan"] None _)).
  rewrite run_command_state. unfold time_sleep. cbn [fst snd].
  match goal with |- context [run ?c None (mgr, ?x)] =>
    rewrite (surjective_pairing (run c None (mgr, x)));
    rewrite (run_command_state c None mgr x);
    rewrite (surjective_pairing (fst (run c None (mgr, x))))
  end.
  rewrite Hfail. now split.
Qed.

(** X4: a connect command that exits with status 0, followed by a refresh
    that lists a connected device whose network is [ssid], succeeds with the
    message "Connected to <ssid>". *)
Theorem connect_verified (mgr mgr' : NetworkManager) (w w1 w2 : World)
    (device ssid output : string) (password : option string)
    (devs : list NetworkDevice) (dev : NetworkDevice) :
  subprocess_run ["iwctl"; "station"; device; "connect"; ssid] password w
  = (Completed 0 output, w1) ->
  refresh (mgr, sleep 2 w1) = (devs, (mgr', w2)) ->
  In dev (devices mgr') -> connected dev = true -> network dev = ssid ->
  connect device ssid password (mgr, w)
  = ((true, "Connected to " ++ ssid), (mgr', w2)).
Proof.
  intros Hrun Hrefresh Hin Hc Hn.
  unfold connect_to_network, bind, run_command. cbn [fst snd].
  rewrite Hrun. cbn [Z.eqb]. unfold time_sleep. cbn [fst snd].
  rewrite Hrefresh. unfold get_self. cbn [fst snd].
  now rewrite (verified_of_In ssid _ dev Hin Hc Hn).
Qed.

(** X5: when the connect command itself fails, nothing else happens: no
    wait, no refresh, and both lists of the store are as before. *)
Theorem connect_command_failure_stops (mgr : NetworkManager) (w : World)
    (device ssid : string) (password : option string) :
  fst (fst (run ["iwctl"; "station"; device; "connect"; ssid] password
              (mgr, w))) = false ->
  snd (connect device ssid password (mgr, w))
  = (mgr, snd (snd (run ["iwctl"; "station"; device; "connect"; ssid]
                        password (mgr, w)))).
Proof.
  intros Hfail. unfold connect_to_network, bind.
  pose proof (run_command_state ["iwctl"; "station"; device; "connect"; ssid]
                password mgr w) as Hs.
  destruct (run ["iwctl"; "station"; device; "connect"; ssid] password
              (mgr, w)) as [[ok out] st].
  simpl in Hfail, Hs. subst ok. exact Hs.
Qed.

(** X6: a connect that reports success leaves a store whose status
    projection is connected: some stored device is connected, and the status
    names such a device. *)
Theorem connect_success_projects_connected (mgr : NetworkManager) (w : World)
    (device ssid message : string) (password : option string) :
  fst (connect device ssid password (mgr, w)) = (true, message) ->
  exists dev,
    In dev (devices (fst (snd (connect device ssid password (mgr, w)))))
    /\ connected dev = true
    /\ update_status (fst (snd (connect device ssid password (mgr, w))))
       = {| connection_status :=
              "connected to " ++ network dev ++ " on " ++ name dev;
            active_connection := network dev ++ " on " ++ name dev |}.
Proof.
  unfold connect_to_network, bind.
  destruct (run ["iwctl"; "station"; device; "connect"; ssid] password
              (mgr, w)) as [[ok out] [mgr1 w1]].
  destruct ok; [|discriminate].
  unfold time_sleep. cbn [fst snd]. rewrite get_devices_result.
  unfold get_self. cbn [fst snd devices].
  match goal with |- context [verified ssid ?d] =>
    destruct (verified ssid d) eqn:Hv; [|discriminate];
    set (devs := d) in *
  end.
  intros _. cbn [fst snd].
  destruct (verified_true _ _ Hv) as (dev0 & Hin0 & Hc0 & _).
  destruct (status_loop_connected devs (ex_intro _ dev0 (conj Hin0 Hc0)))
    as (dev & Hin & Hc & E).
  exists dev. split; [exact Hin|]. split; [exact Hc|].
  unfold update_status, ret. cbn [fst snd devices]. now rewrite E.
Qed.

(** X7: disconnecting does not refresh: whatever the disconnect command
    answers, the status projected from the store is the one from before,
    until the next refresh. *)
Theorem disconnect_keeps_status (mgr : NetworkManager) (w : World)
    (device : string) :
  update_status (fst (snd (disconnect device (mgr, w)))) = update_status mgr
  /\ (fst (fst (disconnect device (mgr, w))) = true
      <-> snd (fst (disconnect device (mgr, w))) = "Disconnected").
Proof.
  unfold disconnect_network, bind.
  pose proof (run_command_state ["iwctl"; "station"; device; "disconnect"]
                None mgr w) as Hs.
  destruct (run ["iwctl"; "station"; device; "disconnect"] None (mgr, w))
    as [[ok out] [mgr' w']].
  simpl in Hs. injection Hs as ->. cbn [fst snd]. split; [reflexivity|].
  destruct ok; split; try reflexivity; discriminate.
Qed.

(** X8: toggling the power of a device whose name is not in the stored
    device list returns [False] without running any command. *)
Theorem toggle_unknown_device (mgr : NetworkManager) (w : World)
    (device : string) :
  (forall dev, In dev (devices mgr) -> name dev <> device) ->
  toggle device (mgr, w) = (false, (mgr, w)).
Proof.
  intros H. unfold toggle_device_power, bind, get_self. cbn [fst snd].
  now rewrite (lookup_device_absent device _ H).
Qed.

(** X9: for a device list that came out of the parser, toggling the power
    of a device of type "station" always asks for "off": such a row contains
    "on" inside "station", so the device was read as powered. *)
Theorem toggle_parsed_station_sends_off (mgr : NetworkManager) (w : World)
    (output device : string) (dev : NetworkDevice) :
  devices mgr = parse_devices output ->
  In dev (devices mgr) -> name dev = device ->
  (forall d, In d (devices mgr) -> name d = device -> type d = "station") ->
  toggle device (mgr, w)
  = (fst (fst (run ["iwctl"; "device"; device; "set-property"; "Powered";
                    "off"] None (mgr, w))),
     snd (run ["iwctl"; "device"; device; "set-property"; "Powered"; "off"]
              None (mgr, w))).
Proof.
  intros Hparse Hin Hname Hst.
  unfold toggle_device_power, bind, get_self. cbn [fst snd].
  destruct (lookup_device device (devices mgr)) as [d|] eqn:El.
  - destruct (lookup_device_In _ _ _ El) as [Hd Hn].
    assert (powered d = true) as ->.
    { pose proof (Hst d Hd Hn) as Hty. rewrite Hparse in Hd.
      destruct (parse_devices_In _ _ Hd) as (line & _ & Hk & ->).
      now apply station_row_powered. }
    now destruct (run _ None (mgr, w)) as [[ok out] st].
  - exfalso. clear Hst Hparse.
    induction (devices mgr) as [|d devs IH]; [destruct Hin|].
    simpl in El. destruct (String.eqb_spec (name d) device) as [E|E];
      [discriminate|].
    destruct Hin as [->|Hin]; [contradiction|]. now apply IH.
Qed.

(** X10: when the device-list command fails, the status projected from the
    store after the refresh is "disconnected", whatever was connected
    before. *)
Theorem failed_refresh_projects_disconnected (mgr : NetworkManager)
    (w : World) :
  fst (fst (run ["iwctl"; "device"; "list"] None (mgr, w))) = false ->
  update_status (fst (snd (refresh (mgr, w))))
  = {| connection_status := "disconnected"; active_connection := "" |}.
Proof.
  intros H. rewrite get_devices_result, H. reflexivity.
Qed.

End ManagerMore.

(** ** Invariants of the parsers *)

Lemma cons_head_tokens (c : ascii) (ts : list string) :
  isspace c = false ->
  (forall t, In t ts -> token t = true) ->
  forall t, In t (cons_head c ts) -> token t = true.
Proof.
  intros Hc H t Ht. unfold token in *.
  destruct ts as [|t0 ts]; simpl in Ht.
  - destruct Ht as [<-|[]]. simpl. now rewrite Hc.
  - destruct Ht as [<-|Ht]; [|apply H; now right].
    pose proof (H t0 (or_introl eq_refl)) as H0.
    apply andb_true_iff in H0 as [_ H0]. simpl. now rewrite Hc, H0.
Qed.

(** Every element of [s.split()] is a token. *)
Lemma split_ws_tokens (s : string) :
  forall t, In t (split_ws s) -> token t = true.
Proof.
  induction s as [|c s IH]; [intros t []|].
  cbn [split_ws]. destruct (isspace c) eqn:Hc; [exact IH|].
  destruct s as [|c' s'].
  - intros t [<-|[]]. unfold token. simpl. now rewrite Hc.
  - destruct (isspace c') eqn:Hc'.
    + intros t [<-|Ht]; [|now apply IH].
      unfold token. simpl. now rewrite Hc.
    + now apply cons_head_tokens.
Qed.

Lemma signal_loop_nonneg (parts : list string) (signal : Z) :
  (0 <= signal)%Z -> (0 <= signal_loop signal parts)%Z.
Proof.
  revert signal; induction parts as [|q parts IH]; intros signal H;
    [exact H|].
  cbn [signal_loop]. apply IH.
  destruct (contains "dBm" q); [|exact H].
  destruct (int (strip (replace "dBm" "" q))); [apply Z.abs_nonneg | exact H].
Qed.

(** X11: every device the parser returns has a name and a type that are
    non-empty and free of whitespace, an empty address, and an empty network
    unless it is connected. *)
Theorem parsed_device_invariant (output : string) (d : NetworkDevice) :
  In d (parse_devices output) ->
  token (name d) = true /\ token (type d) = true
  /\ (connected d = false -> network d = "")
  /\ (network d = "" \/ token (network d) = true)
  /\ address d = "".
Proof.
  intros H. destruct (parse_devices_In _ _ H) as (line & _ & Hk & ->).
  unfold device_row_kept, three_tokens in Hk.
  apply andb_true_iff in Hk as [_ Hk]. apply Nat.leb_le in Hk.
  cbn [device_of_row name type connected network address].
  split; [apply (split_ws_tokens line), nth_In; lia|].
  split; [apply (split_ws_tokens line), nth_In; lia|].
  split; [intros ->; now rewrite andb_false_r|].
  split; [|reflexivity].
  destruct ((3 <? List.length (split_ws line))%nat) eqn:E; [|now left].
  destruct (contains "connected" line); [|now left].
  right. apply (split_ws_tokens line), nth_In.
  apply Nat.ltb_lt in E. exact E.
Qed.

Lemma parsed_device_invariant_witness :
  token (name (device_of_row "wlan0  station  off")) = true
  /\ network (device_of_row "wlan0  station  off") = "".
Proof.
  destruct (parsed_device_invariant off_table
              (device_of_row "wlan0  station  off"))
    as (Hn & _ & Hc & _).
  - vm_compute. now left.
  - split; [exact Hn | apply Hc; reflexivity].
Defined.

(** X12: every network the parser returns has an ssid that is non-empty and
    free of whitespace, a security of "secured" or "open", a signal strength
    that is not negative, and is never marked known. *)
Theorem parsed_network_invariant (output : string) (n : WirelessNetwork) :
  In n (parse_networks output) ->
  token (ssid n) = true
  /\ (security n = "secured" \/ security n = "open")
  /\ (0 <= signal_strength n)%Z
  /\ known n = false /\ frequency n = "".
Proof.
  intros H. destruct (parse_networks_In _ _ H) as (line & _ & Hk & ->).
  unfold network_row_kept in Hk. apply andb_true_iff in Hk as [Hs _].
  rewrite strip_truthy in Hs.
  cbn [network_of_row ssid security signal_strength known frequency].
  split.
  { apply (split_ws_tokens line).
    destruct (split_ws line) as [|t ts]; [discriminate | now left]. }
  split; [destruct (_ || _); [now left | now right]|].
  split; [now apply signal_loop_nonneg | now split].
Qed.

Lemma parsed_network_invariant_witness :
  (0 <= signal_strength (network_of_row "OfficeWiFi  PSK  -55dBm"))%Z.
Proof.
  destruct (parsed_network_invariant
              (with_net_header "OfficeWiFi  PSK  -55dBm")
              (network_of_row "OfficeWiFi  PSK  -55dBm"))
    as (_ & _ & H & _).
  - vm_compute. now left.
  - exact H.
Defined.

(** X13: the parsers return at most one record per line after the header;
    a text of at most three lines gives no device and a text of at most four
    lines gives no network. *)
Theorem parse_length_bound (output : string) :
  (List.length (parse_devices output) <= List.length (lines output) - 3)%nat
  /\ (List.length (parse_networks output)
      <= List.length (lines output) - 4)%nat.
Proof.
  rewrite parse_devices_filter, parse_networks_filter.
  unfold device_rows, network_rows.
  rewrite !length_map. split.
  - etransitivity; [apply filter_length_le|]. now rewrite length_skipn.
  - etransitivity; [apply filter_length_le|]. now rewrite length_skipn.
Qed.

(** X14: a kept row that has the token "disconnected" reads as connected,
    since "connected" occurs inside it. *)
Theorem disconnected_row_reads_connected (output line : string) :
  In line (device_rows output) -> device_row_kept line = true ->
  In "disconnected" (split_ws line) ->
  In (device_of_row line) (parse_devices output)
  /\ connected (device_of_row line) = true.
Proof.
  intros Hin Hk Ht. split.
  - rewrite parse_devices_filter. apply in_map, filter_In. now split.
  - apply contains_iff.
    destruct (split_ws_substring _ _ Ht) as (pre & post & ->).
    exists (pre ++ "dis"), post. now rewrite !append_assoc.
Qed.

Lemma disconnected_row_reads_connected_witness :
  connected (device_of_row "wlan0  station  on  disconnected") = true.
Proof.
  refine (proj2 (disconnected_row_reads_connected
                   (with_header "a" "b" "c"
                                "wlan0  station  on  disconnected")
                   "wlan0  station  on  disconnected" _ _ _)).
  - vm_compute. now left.
  - reflexivity.
  - vm_compute. tauto.
Defined.

(** ** Rows made of fields *)

Lemma split_ws_blank_app (sep s : string) :
  all_space sep = true -> split_ws (sep ++ s) = split_ws s.
Proof.
  induction sep as [|c sep IH]; [reflexivity|].
  cbn [all_space]. intros H. apply andb_true_iff in H as [Hc Hs].
  change (String c sep ++ s) with (String c (sep ++ s)).
  cbn [split_ws]. rewrite Hc. now apply IH.
Qed.

Lemma split_ws_cons2 (c c' : ascii) (s : string) :
  isspace c = false -> isspace c' = false ->
  split_ws (String c (String c' s)) = cons_head c (split_ws (String c' s)).
Proof.
  intros Hc Hc'.
  change (split_ws (String c (String c' s)))
    with (if isspace c then split_ws (String c' s)
          else if isspace c' then String c "" :: split_ws (String c' s)
               else cons_head c (split_ws (String c' s))).
  now rewrite Hc, Hc'.
Qed.

Lemma no_space_cons (c : ascii) (t : string) :
  no_space (String c t) = true -> isspace c = false /\ no_space t = true.
Proof.
  cbn [no_space]. intros H. apply andb_true_iff in H as [H0 H1].
  now apply negb_true_iff in H0.
Qed.

Lemma split_ws_token_app (t s : string) (c : ascii) :
  token t = true -> isspace c = true ->
  split_ws (t ++ String c s) = t :: split_ws s.
Proof.
  intros Ht Hc. unfold token in Ht. apply andb_true_iff in Ht as [Hne Hns].
  destruct t as [|c0 t]; [discriminate|]. clear Hne.
  revert c0 Hns. induction t as [|c1 t IH]; intros c0 Hns.
  - apply no_space_cons in Hns as [H0 _].
    change (String c0 "" ++ String c s) with (String c0 (String c s)).
    cbn [split_ws]. now rewrite H0, Hc.
  - apply no_space_cons in Hns as [H0 Hns].
    destruct (no_space_cons _ _ Hns) as [H1 _].
    change (String c0 (String c1 t) ++ String c s)
      with (String c0 (String c1 (t ++ String c s))).
    rewrite (split_ws_cons2 c0 c1 _ H0 H1).
    change (String c1 (t ++ String c s)) with (String c1 t ++ String c s).
    rewrite (IH c1 Hns). reflexivity.
Qed.

Lemma split_ws_token (t : string) : token t = true -> split_ws t = [t].
Proof.
  intros Ht. unfold token in Ht. apply andb_true_iff in Ht as [Hne Hns].
  destruct t as [|c0 t]; [discriminate|]. clear Hne.
  revert c0 Hns. induction t as [|c1 t IH]; intros c0 Hns.
  - apply no_space_cons in Hns as [H0 _]. cbn [split_ws]. now rewrite H0.
  - apply no_space_cons in Hns as [H0 Hns].
    destruct (no_space_cons _ _ Hns) as [H1 _].
    rewrite (split_ws_cons2 c0 c1 _ H0 H1), (IH c1 Hns). reflexivity.
Qed.

Lemma split_ws_concat (sep : string) (fields : list string) :
  truthy sep = true -> all_space sep = true ->
  Forall (fun f => token f = true) fields ->
  split_ws (concat sep fields) = fields.
Proof.
  intros Hne Hsp Hf. destruct sep as [|c sep]; [discriminate|].
  cbn [all_space] in Hsp. apply andb_true_iff in Hsp as [Hc Hsp].
  induction Hf as [|f fields Hf Hfs IH]; [reflexivity|].
  destruct fields as [|g fields].
  - simpl. now apply split_ws_token.
  - change (concat (String c sep) (f :: g :: fields))
      with (f ++ String c (sep ++ concat (String c sep) (g :: fields))).
    rewrite (split_ws_token_app f _ c Hf Hc), (split_ws_blank_app _ _ Hsp).
    now rewrite IH.
Qed.

Lemma startswith_app (p f r : string) :
  (String.length p <= String.length f)%nat ->
  startswith p (f ++ r) = startswith p f.
Proof.
  unfold startswith. revert f; induction p as [|c p IH]; intros f H.
  - now destruct f, r.
  - destruct f as [|c' f]; [simpl in H; lia|].
    change (String c' f ++ r) with (String c' (f ++ r)). cbn [prefix].
    destruct (ascii_dec c c'); [|reflexivity].
    apply IH. simpl in H. lia.
Qed.

Lemma concat_head (sep f : string) (fields : list string) :
  exists r, concat sep (f :: fields) = f ++ r.
Proof.
  destruct fields as [|g fields].
  - exists "". simpl. now rewrite append_nil_r.
  - now exists (sep ++ concat sep (g :: fields)).
Qed.

(** X15: splitting undoes joining.  A row made of tokens joined by a
    non-empty run of whitespace splits back into exactly those tokens; with
    at least three of them, the first not starting with a dash, the row is
    kept and gives a device named by the first token, of the type given by
    the second. *)
Theorem row_of_fields (sep : string) (fields : list string) :
  truthy sep = true -> all_space sep = true ->
  Forall (fun f => token f = true) fields ->
  split_ws (concat sep fields) = fields
  /\ ((3 <= List.length fields)%nat ->
      startswith "-" (nth 0 fields "") = false ->
      device_row_kept (concat sep fields) = true
      /\ name (device_of_row (concat sep fields)) = nth 0 fields ""
      /\ type (device_of_row (concat sep fields)) = nth 1 fields "").
Proof.
  intros Hne Hsp Hf.
  pose proof (split_ws_concat sep fields Hne Hsp Hf) as Hsplit.
  split; [exact Hsplit|]. intros Hlen Hdash.
  unfold device_row_kept, three_tokens.
  cbn [device_of_row name type]. rewrite Hsplit.
  repeat split.
  apply andb_true_iff. split; [|now apply Nat.leb_le].
  destruct fields as [|f fields]; [simpl in Hlen; lia|].
  destruct (concat_head sep f fields) as [r ->].
  rewrite startswith_app.
  - simpl in Hdash. now rewrite Hdash.
  - inversion Hf as [|? ? Hf0 _]; subst. unfold token in Hf0.
    destruct f; [discriminate | simpl; lia].
Qed.

Lemma row_of_fields_witness :
  split_ws (concat "  " ["wlan1"; "ad-hoc"; "off"]) = ["wlan1"; "ad-hoc"; "off"]
  /\ name (device_of_row (concat "  " ["wlan1"; "ad-hoc"; "off"])) = "wlan1".
Proof.
  destruct (row_of_fields "  " ["wlan1"; "ad-hoc"; "off"]) as [Hs Hd].
  - reflexivity.
  - reflexivity.
  - repeat constructor.
  - split; [exact Hs|].
    destruct Hd as (_ & Hn & _); [simpl; lia | reflexivity | exact Hn].
Defined.

(** ** Further runs on scripted worlds *)

Lemma refresh_twice_same_store_witness :
  fst (snd (script_get_devices
              (fst (snd (script_get_devices
                           (mgr_home, script [Completed 0 off_table;
                                              Completed 0 off_table]))),
               snd (snd (script_get_devices
                           (mgr_home, script [Completed 0 off_table;
                                              Completed 0 off_table]))))))
  = fst (snd (script_get_devices
                (mgr_home, script [Completed 0 off_table;
                                   Completed 0 off_table]))).
Proof.
  apply (refresh_twice_same_store Script script_run script_log mgr_home
           (script [Completed 0 off_table; Completed 0 off_table])).
  reflexivity.
Defined.

Lemma scan_list_failure_empties_networks_witness :
  fst (snd (script_scan_networks (Some "wlan0")
              (mgr_home, script [Completed 0 ""; Completed 1 "No station"])))
  = {| devices := [wlan0_up]; networks := [] |}.
Proof.
  apply (scan_list_failure_empties_networks Script script_run script_sleep
           script_log mgr_home
           (script [Completed 0 ""; Completed 1 "No station"])
           (Some "wlan0") "wlan0"); reflexivity.
Defined.

Lemma connect_verified_witness :
  fst (script_connect "wlan0" "HomeNet" (Some "secret")
         (mgr_wired, script [Completed 0 ""; Completed 0 homenet_table]))
  = (true, "Connected to HomeNet").
Proof.
  refine (f_equal fst
            (connect_verified Script script_run script_sleep script_log
               mgr_wired
               {| devices :=
                    [device_of_row "wlan0  station  on  HomeNet  connected"];
                  networks := [] |}
               (script [Completed 0 ""; Completed 0 homenet_table])
               {| answers := [Completed 0 homenet_table];
                  trace := [Ran ["iwctl"; "station"; "wlan0"; "connect";
                                 "HomeNet"] (Some "secret")] |}
               {| answers := [];
                  trace := [Ran ["iwctl"; "station"; "wlan0"; "connect";
                                 "HomeNet"] (Some "secret");
                            Slept 2;
                            Ran ["iwctl"; "device"; "list"] None] |}
               "wlan0" "HomeNet" "" (Some "secret")
               [device_of_row "wlan0  station  on  HomeNet  connected"]
               (device_of_row "wlan0  station  on  HomeNet  connected")
               _ _ _ _ _)).
  - reflexivity.
  - reflexivity.
  - now left.
  - reflexivity.
  - reflexivity.
Defined.

Lemma connect_command_failure_stops_witness :
  snd (script_connect "wlan0" "HomeNet" (Some "secret")
         (mgr_home, script [Completed 1 "Operation failed"]))
  = (mgr_home,
     {| answers := [];
        trace := [Ran ["iwctl"; "station"; "wlan0"; "connect"; "HomeNet"]
                      (Some "secret")] |}).
Proof.
  apply (connect_command_failure_stops Script script_run script_sleep
           script_log mgr_home (script [Completed 1 "Operation failed"])
           "wlan0" "HomeNet" (Some "secret")).
  reflexivity.
Defined.

Lemma connect_success_projects_connected_witness :
  exists dev,
    In dev (devices (fst (snd (script_connect "wlan0" "HomeNet" None
                                 (mgr_wired,
                                  script [Completed 0 "";
                                          Completed 0 homenet_table])))))
    /\ connected dev = true.
Proof.
  destruct (connect_success_projects_connected Script script_run script_sleep
              script_log mgr_wired
              (script [Completed 0 ""; Completed 0 homenet_table])
              "wlan0" "HomeNet" "Connected to HomeNet" None eq_refl)
    as (dev & Hin & Hc & _).
  exists dev. split; assumption.
Defined.

Lemma toggle_unknown_device_witness :
  script_toggle "wlan9" (mgr_home, script [Completed 0 ""])
  = (false, (mgr_home, script [Completed 0 ""])).
Proof.
  apply (toggle_unknown_device Script script_run script_log mgr_home
           (script [Completed 0 ""]) "wlan9").
  intros dev [<-|[]]. discriminate.
Defined.

Lemma toggle_parsed_station_sends_off_witness :
  trace (snd (snd (script_toggle "wlan0" (mgr_off, script [Completed 0 ""]))))
  = [Ran ["iwctl"; "device"; "wlan0"; "set-property"; "Powered"; "off"] None].
Proof.
  unfold script_toggle.
  rewrite (toggle_parsed_station_sends_off Script script_run script_log
             mgr_off (script [Completed 0 ""]) off_table "wlan0"
             (device_of_row "wlan0  station  off")).
  - reflexivity.
  - reflexivity.
  - vm_compute. now left.
  - reflexivity.
  - intros d [<-|[]] _. reflexivity.
Defined.

Lemma failed_refresh_projects_disconnected_witness :
  update_status mgr_home
  = {| connection_status := "connected to HomeNet on wlan0";
       active_connection := "HomeNet on wlan0" |}
  /\ update_status
       (fst (snd (script_get_devices
                    (mgr_home, script [Raised "timed out"]))))
     = {| connection_status := "disconnected"; active_connection := "" |}.
Proof.
  split; [reflexivity|].
  apply (failed_refresh_projects_disconnected Script script_run script_log
           mgr_home (script [Raised "timed out"])).
  reflexivity.
Defined.

(** ** Slices *)

Lemma str_take_length (n : nat) (s : string) :
  String.length (str_take n s) = Nat.min n (String.length s).
Proof.
  revert s; induction n as [|n IH]; intros [|c s]; simpl; try reflexivity.
  now rewrite IH.
Qed.

Lemma str_drop_length (n : nat) (s : string) :
  String.length (str_drop n s) = (String.length s - n)%nat.
Proof.
  revert s; induction n as [|n IH]; intros [|c s]; simpl; try reflexivity.
  now rewrite IH.
Qed.

Lemma append_length (a b : string) :
  String.length (a ++ b) = (String.length a + String.length b)%nat.
Proof. induction a as [|c a IH]; simpl; [reflexivity | now rewrite IH]. Qed.

Lemma str_take_drop (n : nat) (s : string) : str_take n s ++ str_drop n s = s.
Proof.
  revert s; induction n as [|n IH]; intros [|c s]; simpl; try reflexivity.
  now rewrite IH.
Qed.

Lemma str_take_app (a b : string) : str_take (String.length a) (a ++ b) = a.
Proof. induction a as [|c a IH]; simpl; [now destruct b | now rewrite IH]. Qed.

Lemma str_drop_app (a b : string) : str_drop (String.length a) (a ++ b) = b.
Proof. induction a as [|c a IH]; simpl; [reflexivity | exact IH]. Qed.

Lemma str_take_all (s : string) : str_take (String.length s) s = s.
Proof. induction s as [|c s IH]; simpl; [reflexivity | now rewrite IH]. Qed.

Lemma str_drop_all (s : string) : str_drop (String.length s) s = "".
Proof. induction s as [|c s IH]; simpl; [reflexivity | exact IH]. Qed.

Lemma spaces_length (n : nat) : String.length (spaces n) = n.
Proof. induction n as [|n IH]; simpl; [reflexivity | now rewrite IH]. Qed.

Lemma slice_bound_in_range (len i : Z) :
  (0 <= i <= len)%Z -> slice_bound len i = Z.to_nat i.
Proof.
  intros H. unfold slice_bound.
  destruct (Z.ltb_spec i 0); [lia|]. f_equal. lia.
Qed.

(** [item.ljust(width)[:width]] has exactly [width] characters. *)
Lemma display_text_length (item : string) (width : Z) :
  (0 <= width)%Z ->
  Z.of_nat (String.length (slice_to (ljust item width) width)) = width.
Proof.
  intros H. unfold slice_to, ljust.
  rewrite str_take_length, append_length, spaces_length.
  unfold slice_bound. destruct (Z.ltb_spec width 0); lia.
Qed.

Lemma enumerate_from_nth {A : Type} (l : list A) (i : Z) (k : nat) (a : A) :
  nth_error l k = Some a -> In ((i + Z.of_nat k)%Z, a) (enumerate_from i l).
Proof.
  revert i k; induction l as [|b l IH]; intros i k H.
  - now destruct k.
  - destruct k as [|k]; simpl in H.
    + injection H as ->. left. f_equal. lia.
    + right. replace (i + Z.of_nat (S k))%Z with ((i + 1) + Z.of_nat k)%Z
        by lia.
      now apply IH.
Qed.

Lemma enumerate_from_In {A : Type} (l : list A) (i j : Z) (a : A) :
  In (j, a) (enumerate_from i l) ->
  exists k, j = (i + Z.of_nat k)%Z /\ nth_error l k = Some a.
Proof.
  revert i; induction l as [|b l IH]; intros i H; [destruct H|].
  destruct H as [H|H].
  - injection H as <- <-. exists 0%nat. split; [lia | reflexivity].
  - destruct (IH _ H) as (k & -> & Hk). exists (S k). split; [lia | exact Hk].
Qed.

Lemma enumerate_from_length {A : Type} (l : list A) (i : Z) :
  List.length (enumerate_from i l) = List.length l.
Proof.
  revert i; induction l as [|b l IH]; intros i; simpl;
    [reflexivity | now rewrite IH].
Qed.

Lemma list_slice_length {A : Type} (l : list A) (start height : Z) :
  (0 <= height)%Z ->
  (Z.of_nat (List.length (list_slice l start (start + height))) <= height)%Z.
Proof.
  intros H. unfold list_slice, slice_bound.
  rewrite length_firstn, length_skipn.
  destruct (Z.ltb_spec start 0), (Z.ltb_spec (start + height) 0); lia.
Qed.

Lemma list_slice_nth {A : Type} (l : list A) (start stop : Z) (k : nat) :
  (0 <= start)%Z -> (start + Z.of_nat k < stop)%Z ->
  nth_error (list_slice l start stop) k
  = nth_error l (Z.to_nat start + k).
Proof.
  intros Hs Hk. unfold list_slice.
  destruct (Z_lt_le_dec (start + Z.of_nat k) (Z.of_nat (List.length l)))
    as [Hin|Hout].
  - rewrite nth_error_firstn, nth_error_skipn.
    assert (slice_bound (Z.of_nat (List.length l)) start = Z.to_nat start)
      as Ea by (unfold slice_bound; destruct (Z.ltb_spec start 0); lia).
    rewrite Ea.
    destruct (Nat.ltb_spec k
                (slice_bound (Z.of_nat (List.length l)) stop - Z.to_nat start))
      as [_|Hge]; [reflexivity|].
    exfalso. revert Hge. unfold slice_bound.
    destruct (Z.ltb_spec stop 0); lia.
  - transitivity (@None A).
    + apply nth_error_None. rewrite length_firstn, length_skipn.
      unfold slice_bound.
      destruct (Z.ltb_spec start 0), (Z.ltb_spec stop 0); lia.
    + symmetry. apply nth_error_None. lia.
Qed.

(** ** The list view *)

Lemma adjust_scroll_visible (scroll_offset selected_index height : Z) :
  (0 < height)%Z ->
  (ListView.adjust_scroll scroll_offset selected_index height
   <= selected_index
   < ListView.adjust_scroll scroll_offset selected_index height + height)%Z.
Proof.
  intros H. unfold ListView.adjust_scroll.
  destruct (Z.ltb_spec selected_index scroll_offset); [lia|].
  rewrite Z.geb_leb.
  destruct (Z.leb_spec (scroll_offset + height) selected_index); lia.
Qed.

Lemma adjust_scroll_nonneg (scroll_offset selected_index height : Z) :
  (0 <= scroll_offset)%Z -> (0 <= selected_index)%Z ->
  (0 <= ListView.adjust_scroll scroll_offset selected_index height)%Z.
Proof.
  intros H1 H2. unfold ListView.adjust_scroll.
  destruct (Z.ltb_spec selected_index scroll_offset); [lia|].
  rewrite Z.geb_leb.
  destruct (Z.leb_spec (scroll_offset + height) selected_index); lia.
Qed.

(** X16: with a positive height, the scroll offset after the adjustment of
    [draw] has the selected index inside the window of [height] items that
    starts at it; an offset that already has it there is kept. *)
Theorem scroll_keeps_selection_visible (scroll_offset selected_index
    height : Z) :
  (0 < height)%Z ->
  (ListView.adjust_scroll scroll_offset selected_index height
   <= selected_index
   < ListView.adjust_scroll scroll_offset selected_index height + height)%Z
  /\ ((scroll_offset <= selected_index < scroll_offset + height)%Z ->
      ListView.adjust_scroll scroll_offset selected_index height
      = scroll_offset).
Proof.
  intros H. split; [now apply adjust_scroll_visible|].
  intros Hin. unfold ListView.adjust_scroll.
  destruct (Z.ltb_spec selected_index scroll_offset); [lia|].
  rewrite Z.geb_leb.
  destruct (Z.leb_spec (scroll_offset + height) selected_index); lia.
Qed.

Lemma scroll_keeps_selection_visible_witness :
  ListView.adjust_scroll 0 7 5 = 3%Z /\ ListView.adjust_scroll 3 4 5 = 3%Z.
Proof.
  split; [reflexivity|].
  apply (proj2 (scroll_keeps_selection_visible 3 4 5 eq_refl)). lia.
Defined.

(** X17: what a view of positive height and non-negative width and scroll
    offset draws for a selection inside the list.  It draws at most [height]
    rows, each of exactly [width] characters, at the view's column and on
    its lines; the selected item is one of them, padded or cut to the width
    and highlighted, and no row on another line is highlighted. *)
Theorem draw_shows_selected_item (self : ListView.t) (items : list string)
    (selected_index : Z) (item : string) :
  (0 < ListView.height self)%Z -> (0 <= ListView.width self)%Z ->
  (0 <= ListView.scroll_offset self)%Z -> (0 <= selected_index)%Z ->
  nth_error items (Z.to_nat selected_index) = Some item ->
  let view := fst (fst (ListView.draw self items selected_index)) in
  let rows := snd (fst (ListView.draw self items selected_index)) in
  let line := (ListView.y self + (selected_index - ListView.scroll_offset view))%Z in
  (Z.of_nat (List.length rows) <= ListView.height self)%Z
  /\ (forall r, In r rows ->
        Z.of_nat (String.length (ListView.display_text r))
        = ListView.width self
        /\ ListView.x_pos r = ListView.x self
        /\ (ListView.y self <= ListView.y_pos r
            < ListView.y self + ListView.height self)%Z
        /\ (ListView.is_selected r = true -> ListView.y_pos r = line))
  /\ In {| ListView.y_pos := line;
           ListView.x_pos := ListView.x self;
           ListView.display_text :=
             slice_to (ljust item (ListView.width self)) (ListView.width self);
           ListView.is_selected := true |} rows.
Proof.
  intros Hh Hw Hs Hsel Hitem. cbv zeta.
  unfold ListView.draw. cbn [fst snd ListView.scroll_offset].
  set (scroll := ListView.adjust_scroll (ListView.scroll_offset self)
                   selected_index (ListView.height self)).
  pose proof (adjust_scroll_visible (ListView.scroll_offset self)
                selected_index _ Hh) as Hvis. fold scroll in Hvis.
  pose proof (adjust_scroll_nonneg (ListView.scroll_offset self)
                selected_index (ListView.height self) Hs Hsel) as Hnn.
  fold scroll in Hnn.
  set (visible := list_slice items scroll (scroll + ListView.height self)).
  assert (Z.of_nat (List.length visible) <= ListView.height self)%Z as Hlen
    by (apply list_slice_length; lia).
  split; [now rewrite length_map, enumerate_from_length|]. split.
  - intros r Hr. apply in_map_iff in Hr as ([i it] & <- & Hin).
    apply enumerate_from_In in Hin as (k & -> & Hk).
    assert (k < List.length visible)%nat as Hlt
      by (apply nth_error_Some; congruence).
    cbn [ListView.display_text ListView.x_pos ListView.y_pos
         ListView.is_selected].
    split; [now apply display_text_length|]. split; [reflexivity|].
    split; [lia|]. intros E. apply Z.eqb_eq in E. lia.
  - apply in_map_iff.
    exists ((0 + Z.of_nat (Z.to_nat (selected_index - scroll)))%Z, item).
    split.
    + f_equal; [lia|]. apply Z.eqb_eq. lia.
    + apply enumerate_from_nth. unfold visible.
      rewrite list_slice_nth by lia.
      replace (Z.to_nat scroll + Z.to_nat (selected_index - scroll))%nat
        with (Z.to_nat selected_index) by lia.
      exact Hitem.
Qed.

Lemma draw_shows_selected_item_witness :
  In {| ListView.y_pos := 11; ListView.x_pos := 2;
        ListView.display_text := "cafe  ";
        ListView.is_selected := true |}
     (snd (fst (ListView.draw (ListView.init 10 2 6 2)
                  ["home"; "office"; "cafe-wifi"; "cafe"] 3))).
Proof.
  pose proof (draw_shows_selected_item (ListView.init 10 2 6 2)
                ["home"; "office"; "cafe-wifi"; "cafe"] 3 "cafe"
                eq_refl) as H.
  cbv zeta in H.
  refine (proj2 (proj2 (H _ _ _ eq_refl))); cbn; lia.
Defined.

(** ** Signal bars *)

Ltac bars_cases :=
  unfold get_signal_bars;
  repeat match goal with
         | |- context [(?a >? ?b)%Z] =>
             rewrite (Z.gtb_ltb a b); destruct (Z.ltb_spec b a)
         end.

Lemma get_signal_bars_mono (a b : Z) :
  (a <= b)%Z -> (bars (get_signal_bars a) <= bars (get_signal_bars b))%nat.
Proof. intros H. bars_cases; simpl; lia. Qed.

(** X18: the bar display always has five characters, between one and five
    of them bars, and a larger strength never shows fewer bars. *)
Theorem signal_bars_shape (a b : Z) :
  String.length (get_signal_bars a) = 5%nat
  /\ (1 <= bars (get_signal_bars a) <= 5)%nat
  /\ ((a <= b)%Z ->
      (bars (get_signal_bars a) <= bars (get_signal_bars b))%nat).
Proof.
  split; [bars_cases; reflexivity|].
  split; [bars_cases; simpl; lia|].
  apply get_signal_bars_mono.
Qed.

Lemma signal_bars_shape_witness :
  (bars (get_signal_bars 30) <= bars (get_signal_bars 90))%nat.
Proof. apply (proj2 (proj2 (signal_bars_shape 30 90))). lia. Defined.

(** X19: the strength shown is the magnitude of the reading, so of two rows
    whose deciding tokens are negative dBm readings, the one with the lower
    (weaker) reading never shows fewer bars. *)
Theorem weaker_reading_not_fewer_bars (weak strong : string)
    (pre1 post1 pre2 post2 : list string) (p q : string) (n m : Z) :
  split_ws weak = (pre1 ++ (p ++ "dBm")%string :: post1)%list ->
  (forall t, In t post1 -> dBm_value t = None) ->
  split_ws strong = (pre2 ++ (q ++ "dBm")%string :: post2)%list ->
  (forall t, In t post2 -> dBm_value t = None) ->
  int p = Some n -> int q = Some m ->
  (n <= m <= 0)%Z ->
  (bars (get_signal_bars (signal_strength (network_of_row strong)))
   <= bars (get_signal_bars (signal_strength (network_of_row weak))))%nat.
Proof.
  intros E1 H1 E2 H2 Hp Hq Hnm.
  cbn [network_of_row signal_strength]. rewrite E1, E2.
  rewrite (signal_loop_last 50 (Z.abs n) pre1 post1 _
             (dBm_value_suffix p n Hp) H1).
  rewrite (signal_loop_last 50 (Z.abs m) pre2 post2 _
             (dBm_value_suffix q m Hq) H2).
  apply get_signal_bars_mono. lia.
Qed.

Lemma weaker_reading_not_fewer_bars_witness :
  get_signal_bars (signal_strength (network_of_row "Far  PSK  -90dBm"))
  = "|||||"
  /\ get_signal_bars (signal_strength (network_of_row "Near  PSK  -30dBm"))
     = "||   "
  /\ (bars (get_signal_bars
              (signal_strength (network_of_row "Near  PSK  -30dBm")))
      <= bars (get_signal_bars
                 (signal_strength (network_of_row "Far  PSK  -90dBm"))))%nat.
Proof.
  split; [reflexivity|]. split; [reflexivity|].
  apply (weaker_reading_not_fewer_bars
           "Far  PSK  -90dBm" "Near  PSK  -30dBm"
           ["Far"; "PSK"] [] ["Near"; "PSK"] [] "-90" "-30" (-90) (-30));
    try reflexivity; try (intros t []); lia.
Defined.

(** ** The input dialog *)

(** A printable key, [32 <= key <= 126]. *)
Lemma printable_key (input_text : string) (cursor_pos key : Z) :
  (32 <= key <= 126)%Z ->
  Dialog.input_key input_text cursor_pos key
  = Dialog.Editing
      (slice_to input_text cursor_pos ++ String (chr key) ""
       ++ slice_from input_text cursor_pos)
      (cursor_pos + 1).
Proof.
  intros H. unfold Dialog.input_key, is_enter, KEY_ENTER, KEY_BACKSPACE,
    KEY_LEFT, KEY_RIGHT.
  repeat match goal with
         | |- context [(?a =? ?b)%Z] =>
             destruct (Z.eqb_spec a b); [lia|]
         end.
  cbn [orb].
  destruct (Z.leb_spec 32 key); [|lia].
  destruct (Z.leb_spec key 126); [|lia].
  reflexivity.
Qed.

Lemma input_key_invariant (input_text : string) (cursor_pos key : Z) :
  (0 <= cursor_pos <= Z.of_nat (String.length input_text))%Z ->
  match Dialog.input_key input_text cursor_pos key with
  | Dialog.Editing t p => (0 <= p <= Z.of_nat (String.length t))%Z
  | Dialog.Returned _ => True
  end.
Proof.
  intros H. unfold Dialog.input_key.
  destruct (is_enter key); [exact I|].
  destruct (key =? 27)%Z; [exact I|].
  destruct ((key =? KEY_BACKSPACE) || (key =? 127))%Z.
  { destruct (Z.gtb_spec cursor_pos 0) as [Hpos|_]; [|exact H].
    unfold slice_to, slice_from.
    rewrite !slice_bound_in_range by lia.
    rewrite append_length, str_take_length, str_drop_length. lia. }
  destruct (key =? KEY_LEFT)%Z; [lia|].
  destruct (key =? KEY_RIGHT)%Z; [lia|].
  destruct ((32 <=? key) && (key <=? 126))%Z; [|exact H].
  unfold slice_to, slice_from.
  rewrite !slice_bound_in_range by lia.
  rewrite !append_length, str_take_length, str_drop_length. simpl. lia.
Qed.

Lemma input_loop_invariant (keys : list Z) (input_text : string)
    (cursor_pos : Z) :
  (0 <= cursor_pos <= Z.of_nat (String.length input_text))%Z ->
  match Dialog.input_loop (Dialog.Editing input_text cursor_pos) keys with
  | Dialog.Editing t p => (0 <= p <= Z.of_nat (String.length t))%Z
  | Dialog.Returned _ => True
  end.
Proof.
  revert input_text cursor_pos.
  induction keys as [|key keys IH]; intros t p H; [exact H|].
  cbn [Dialog.input_loop].
  pose proof (input_key_invariant t p key H) as Hk.
  destruct (Dialog.input_key t p key) as [t' p'|r].
  - now apply IH.
  - now destruct keys.
Qed.

(** X20: whatever keys are pressed, while the input dialog is still open
    its cursor is inside the text: between 0 and the length of the text. *)
Theorem input_cursor_in_text (keys : list Z) :
  match Dialog.input keys with
  | Dialog.Editing t p => (0 <= p <= Z.of_nat (String.length t))%Z
  | Dialog.Returned _ => True
  end.
Proof. apply input_loop_invariant. simpl. lia. Qed.

Lemma type_at_end (keys : list Z) (input_text : string) (rest : list Z) :
  Forall (fun key => (32 <= key <= 126)%Z) keys ->
  Dialog.input_loop
    (Dialog.Editing input_text (Z.of_nat (String.length input_text)))
    (keys ++ rest)
  = Dialog.input_loop
      (Dialog.Editing
         (input_text ++ string_of_list_ascii (map chr keys))
         (Z.of_nat (String.length
                      (input_text ++ string_of_list_ascii (map chr keys)))))
      rest.
Proof.
  intros Hk. revert input_text.
  induction Hk as [|key keys Hkey Hkeys IH]; intros t.
  - simpl. now rewrite append_nil_r.
  - cbn [app Dialog.input_loop]. rewrite (printable_key _ _ _ Hkey).
    unfold slice_to, slice_from.
    rewrite !slice_bound_in_range by lia.
    rewrite Nat2Z.id, str_take_all, str_drop_all.
    replace (Z.of_nat (String.length t) + 1)%Z
      with (Z.of_nat (String.length (t ++ String (chr key) "")))
      by (rewrite append_length; simpl; lia).
    rewrite IH. cbn [map string_of_list_ascii].
    now rewrite append_assoc.
Qed.

(** X21: typing printable keys and then Enter returns exactly the typed
    characters, in order. *)
Theorem input_returns_typed_text (keys : list Z) :
  Forall (fun key => (32 <= key <= 126)%Z) keys ->
  Dialog.input (keys ++ [10%Z])
  = Dialog.Returned (Some (string_of_list_ascii (map chr keys))).
Proof.
  intros H. unfold Dialog.input.
  exact (type_at_end keys "" [10%Z] H).
Qed.

Lemma input_returns_typed_text_witness :
  Dialog.input [ord "s"; ord "3"; ord "c"; ord "r"; ord "e"; ord "t"; 10%Z]
  = Dialog.Returned (Some "s3cret").
Proof.
  apply (input_returns_typed_text
           [ord "s"; ord "3"; ord "c"; ord "r"; ord "e"; ord "t"]).
  repeat constructor; vm_compute; discriminate.
Defined.

Lemma backspace_key (input_text : string) (cursor_pos : Z) :
  (0 < cursor_pos)%Z ->
  Dialog.input_key input_text cursor_pos KEY_BACKSPACE
  = Dialog.Editing
      (slice_to input_text (cursor_pos - 1) ++ slice_from input_text cursor_pos)
      (cursor_pos - 1).
Proof.
  intros H. unfold Dialog.input_key.
  assert (is_enter KEY_BACKSPACE = false) as -> by reflexivity.
  assert ((KEY_BACKSPACE =? 27)%Z = false) as -> by reflexivity.
  assert (((KEY_BACKSPACE =? KEY_BACKSPACE) || (KEY_BACKSPACE =? 127))%Z
          = true) as -> by reflexivity.
  destruct (Z.gtb_spec cursor_pos 0); [reflexivity | lia].
Qed.

(** X22: with the cursor inside the text, typing a printable key and then
    Backspace gives back the text and the cursor position. *)
Theorem input_type_then_backspace (input_text : string)
    (cursor_pos key : Z) :
  (0 <= cursor_pos <= Z.of_nat (String.length input_text))%Z ->
  (32 <= key <= 126)%Z ->
  Dialog.input_loop (Dialog.Editing input_text cursor_pos)
                    [key; KEY_BACKSPACE]
  = Dialog.Editing input_text cursor_pos.
Proof.
  intros Hp Hk. cbn [Dialog.input_loop]. rewrite (printable_key _ _ _ Hk).
  rewrite backspace_key by lia.
  replace (cursor_pos + 1 - 1)%Z with cursor_pos by lia.
  unfold slice_to, slice_from.
  set (a := str_take _ input_text). set (b := str_drop _ input_text).
  assert (String.length a = Z.to_nat cursor_pos) as Ha.
  { unfold a. rewrite str_take_length, slice_bound_in_range by lia. lia. }
  assert (a ++ b = input_text) as Hab by apply str_take_drop.
  assert (Z.of_nat (String.length (a ++ String (chr key) "" ++ b))
          = (Z.of_nat (String.length input_text) + 1)%Z) as Hlen.
  { pose proof (f_equal String.length Hab) as Hl.
    rewrite append_length in Hl. rewrite !append_length. simpl. lia. }
  rewrite !slice_bound_in_range by lia.
  rewrite <- Ha at 1. rewrite str_take_app.
  replace (Z.to_nat (cursor_pos + 1))
    with (String.length (a ++ String (chr key) ""))
    by (rewrite append_length; simpl; lia).
  rewrite <- (append_assoc a (String (chr key) "") b), str_drop_app.
  now rewrite Hab.
Qed.

Lemma input_type_then_backspace_witness :
  Dialog.input_loop (Dialog.Editing "pasword" 3) [ord "s"; KEY_BACKSPACE]
  = Dialog.Editing "pasword" 3.
Proof.
  apply (input_type_then_backspace "pasword" 3 (ord "s"));
    vm_compute; split; discriminate.
Defined.

(** ** The message dialog *)

Lemma split_on_nonempty (sep : ascii) (s : string) : split_on sep s <> [].
Proof.
  destruct s as [|c s]; simpl; [discriminate|].
  destruct (Ascii.eqb c sep); [discriminate|].
  destruct (split_on sep s); discriminate.
Qed.

Lemma fold_max_bound (ls : list string) (m0 : Z) :
  (m0 <= fold_left (fun m l => Z.max m (Z.of_nat (String.length l))) ls m0)%Z
  /\ forall l, In l ls ->
       (Z.of_nat (String.length l)
        <= fold_left (fun m l' => Z.max m (Z.of_nat (String.length l')))
                     ls m0)%Z.
Proof.
  revert m0; induction ls as [|l0 ls IH]; intros m0; simpl.
  - split; [lia | intros l []].
  - destruct (IH (Z.max m0 (Z.of_nat (String.length l0)))) as [H0 H1].
    split; [lia|]. intros l [<-|Hl]; [lia | now apply H1].
Qed.

Lemma max_len_bound (ls : list string) (m : Z) :
  Dialog.max_len ls = Some m ->
  forall l, In l ls -> (Z.of_nat (String.length l) <= m)%Z.
Proof.
  destruct ls as [|l0 ls]; [discriminate|]. simpl. intros [= <-] l Hl.
  destruct (fold_max_bound ls (Z.of_nat (String.length l0))) as [H0 H1].
  destruct Hl as [<-|Hl]; [exact H0 | now apply H1].
Qed.

(** X23: the message dialog always gets a box.  The box is six lines higher
    than the message has lines and wide enough for every line of the message
    and for the title with four columns to spare; a box that is not larger
    than the screen lies inside the screen. *)
Theorem message_box_fits (title message : string)
    (screen_height screen_width : Z) :
  exists b,
    Dialog.message_box title message screen_height screen_width = Some b
    /\ Dialog.box_height b = (Z.of_nat (List.length (lines message)) + 6)%Z
    /\ (forall l, In l (lines message) ->
          (Z.of_nat (String.length l) + 4 <= Dialog.box_width b)%Z)
    /\ (Z.of_nat (String.length title) + 4 <= Dialog.box_width b)%Z
    /\ ((Dialog.box_height b <= screen_height)%Z ->
        (0 <= Dialog.box_y b)%Z
        /\ (Dialog.box_y b + Dialog.box_height b <= screen_height)%Z)
    /\ ((Dialog.box_width b <= screen_width)%Z ->
        (0 <= Dialog.box_x b)%Z
        /\ (Dialog.box_x b + Dialog.box_width b <= screen_width)%Z).
Proof.
  unfold Dialog.message_box.
  destruct (Dialog.max_len (lines message)) as [m|] eqn:E.
  - eexists. split; [reflexivity|].
    cbn [Dialog.box_height Dialog.box_width Dialog.box_y Dialog.box_x].
    split; [reflexivity|]. split.
    { intros l Hl. pose proof (max_len_bound _ _ E l Hl). lia. }
    split; [lia|]. split; intros H.
    + split; [apply Z.div_pos; lia|].
      pose proof (Z.mul_div_le
                    (screen_height
                     - (Z.of_nat (List.length (lines message)) + 6)) 2).
      lia.
    + split; [apply Z.div_pos; lia|].
      set (w := Z.max (m + 4) (Z.of_nat (String.length title) + 4)) in *.
      pose proof (Z.mul_div_le (screen_width - w) 2). lia.
  - exfalso. unfold Dialog.max_len in E.
    destruct (lines message) eqn:El; [|discriminate].
    exact (split_on_nonempty _ _ El).
Qed.

Lemma message_box_fits_witness :
  Dialog.message_box "Connection Result" "Connection verification failed"
                     24 80
  = Some {| Dialog.box_y := 8; Dialog.box_x := 23;
            Dialog.box_width := 34; Dialog.box_height := 7 |}.
Proof.
  destruct (message_box_fits "Connection Result"
              "Connection verification failed" 24 80)
    as (b & E & _).
  rewrite E. vm_compute in E. now symmetry.
Defined.

(** ** The key handlers *)

Section ScreenFacts.

Variable World : Type.
Variable subprocess_run :
  list string -> option string -> World -> completion * World.
Variable logger_error : string -> World -> World.

Local Abbreviation main_key :=
  (handle_main_screen_input subprocess_run logger_error).
Local Abbreviation device_key :=
  (handle_device_list_input subprocess_run logger_error).
Local Abbreviation refresh := (get_devices subprocess_run logger_error).
Local Abbreviation toggle :=
  (toggle_device_power subprocess_run logger_error).

(** X24: on the main menu the Up and Down keys only move the selection:
    they run no command, keep the application running, and leave the
    selection between 0 and 5 whatever it was, wrapping around; from a
    selection in that range, Up followed by Down, and Down followed by Up,
    come back to it. *)
Theorem main_menu_selection_wraps (ui : Screen) (key : Z)
    (st : NetworkManager * World) :
  key = KEY_UP \/ key = KEY_DOWN ->
  snd (main_key ui key st) = st
  /\ snd (fst (main_key ui key st)) = true
  /\ current_screen (fst (fst (main_key ui key st))) = current_screen ui
  /\ (0 <= selected_index (fst (fst (main_key ui key st))) < 6)%Z
  /\ ((0 <= selected_index ui < 6)%Z ->
      fst (fst (main_key (fst (fst (main_key ui KEY_UP st))) KEY_DOWN st))
      = ui
      /\ fst (fst (main_key (fst (fst (main_key ui KEY_DOWN st))) KEY_UP st))
         = ui).
Proof.
  intros Hkey. destruct ui as [screen i].
  assert (forall j, (0 <= j mod 6 < 6)%Z) as Hmod
    by (intros j; apply Z.mod_pos_bound; lia).
  repeat split;
    try (destruct Hkey as [->| ->]; cbn;
         first [reflexivity | apply Hmod]).
  - cbn. f_equal. cbn in H.
    rewrite Zplus_mod_idemp_l.
    replace (i - 1 + 1)%Z with i by lia. apply Z.mod_small. lia.
  - cbn. f_equal. cbn in H.
    rewrite Zminus_mod_idemp_l.
    replace (i + 1 - 1)%Z with i by lia. apply Z.mod_small. lia.
Qed.

Lemma is_enter_keys (key : Z) :
  is_enter key = true <-> key = KEY_ENTER \/ key = 10%Z \/ key = 13%Z.
Proof.
  unfold is_enter. rewrite !orb_true_iff, !Z.eqb_eq. tauto.
Qed.

(** X25: the main menu stops the application exactly on the keys q and Q
    and on Enter with the selection on entry 5, "Quit". *)
Theorem main_menu_quits_iff (ui : Screen) (key : Z)
    (st : NetworkManager * World) :
  snd (fst (main_key ui key st)) = false
  <-> key = ord "q" \/ key = ord "Q"
      \/ (is_enter key = true /\ selected_index ui = 5%Z).
Proof.
  change (ord "q") with 113%Z. change (ord "Q") with 81%Z.
  unfold handle_main_screen_input.
  change (ord "q") with 113%Z. change (ord "Q") with 81%Z.
  unfold KEY_UP, KEY_DOWN.
  destruct (Z.eqb_spec key 259) as [->|Hup].
  { cbn. split; [discriminate|]. intros [H|[H|[H _]]]; discriminate. }
  destruct (Z.eqb_spec key 258) as [->|Hdown].
  { cbn. split; [discriminate|]. intros [H|[H|[H _]]]; discriminate. }
  destruct (is_enter key) eqn:He.
  - apply is_enter_keys in He. unfold KEY_ENTER in He.
    destruct (Z.eqb_spec (selected_index ui) 0) as [E0|N0].
    { cbn. split; [discriminate|]. intros [H|[H|[_ H]]]; lia. }
    destruct (Z.eqb_spec (selected_index ui) 1) as [E1|N1].
    { unfold bind. destruct (refresh st) as [devs st']. cbn.
      split; [discriminate|]. intros [H|[H|[_ H]]]; lia. }
    destruct (Z.eqb_spec (selected_index ui) 5) as [E5|N5].
    { cbn. split; [intros _; right; right; now split | reflexivity]. }
    cbn. split; [discriminate|]. intros [H|[H|[_ H]]]; lia.
  - destruct (Z.eqb_spec key 113) as [->|Nq].
    { cbn. split; [intros _; now left | reflexivity]. }
    destruct (Z.eqb_spec key 81) as [->|NQ].
    { cbn. split; [intros _; right; now left | reflexivity]. }
    cbn. split; [discriminate|]. intros [H|[H|[H _]]]; congruence.
Qed.

(** On the main menu, Enter with the selection on any entry other than
    0, 1 and 5 does nothing at all: the screen, the selection, the store and
    the world stay as they are and the application keeps running. *)
Theorem main_menu_other_entries_do_nothing (ui : Screen) (key : Z)
    (st : NetworkManager * World) :
  is_enter key = true ->
  selected_index ui <> 0%Z -> selected_index ui <> 1%Z ->
  selected_index ui <> 5%Z ->
  main_key ui key st = ((ui, true), st).
Proof.
  intros He N0 N1 N5. unfold handle_main_screen_input. rewrite He.
  apply is_enter_keys in He. unfold KEY_ENTER in He. unfold KEY_UP, KEY_DOWN.
  destruct (Z.eqb_spec key 259); [lia|].
  destruct (Z.eqb_spec key 258); [lia|].
  destruct (Z.eqb_spec (selected_index ui) 0); [contradiction|].
  destruct (Z.eqb_spec (selected_index ui) 1); [contradiction|].
  destruct (Z.eqb_spec (selected_index ui) 5); [contradiction|].
  reflexivity.
Qed.

(** X26: on the device list, a selection that is not negative stays so
    under every key and no key makes the handler fail on its list access;
    after Down the selection is at most the last entry, "Back". *)
Theorem device_list_selection_stays_valid (ui : Screen) (key : Z)
    (mgr : NetworkManager) (w : World) :
  (0 <= selected_index ui)%Z ->
  exists ui',
    fst (device_key ui key (mgr, w)) = Some ui'
    /\ (0 <= selected_index ui')%Z
    /\ (key = KEY_DOWN ->
        (selected_index ui'
         <= Z.of_nat (List.length (devices mgr)) + 1)%Z).
Proof.
  intros Hi. unfold handle_device_list_input, bind, get_self.
  cbn [fst snd]. unfold KEY_UP, KEY_DOWN.
  destruct (Z.eqb_spec key 259) as [->|Hup].
  { eexists. split; [reflexivity|]. cbn. split; [lia | discriminate]. }
  destruct (Z.eqb_spec key 258) as [->|Hdown].
  { eexists. split; [reflexivity|]. cbn. split; lia. }
  assert (forall ui0 : Screen,
             (0 <= selected_index ui0)%Z ->
             exists ui', Some ui0 = Some ui'
                         /\ (0 <= selected_index ui')%Z
                         /\ (key = 258%Z ->
                             (selected_index ui'
                              <= Z.of_nat (List.length (devices mgr)) + 1)%Z))
    as Hsame.
  { intros ui0 H0. exists ui0. split; [reflexivity|].
    split; [exact H0 | intros ->; contradiction]. }
  destruct (is_enter key).
  - destruct (Z.ltb_spec (selected_index ui)
                (Z.of_nat (List.length (devices mgr)))) as [Hlt|Hge].
    + unfold list_index. destruct (Z.ltb_spec (selected_index ui) 0); [lia|].
      destruct (nth_error (devices mgr) (Z.to_nat (selected_index ui)))
        as [device|] eqn:En.
      * destruct (toggle (name device) (mgr, w)) as [toggled st1].
        destruct toggled; [|now apply Hsame].
        destruct (refresh st1) as [devs st2]. now apply Hsame.
      * apply nth_error_None in En. lia.
    + destruct (Z.eqb_spec (selected_index ui)
                  (Z.of_nat (List.length (devices mgr)) + 1));
        apply Hsame; [cbn; lia | exact Hi].
  - destruct ((key =? ord "b") || (key =? ord "B"))%Z;
      apply Hsame; [cbn; lia | exact Hi].
Qed.

End ScreenFacts.

(** ** The key handlers on scripted worlds *)

Lemma main_menu_selection_wraps_witness :
  fst (script_main_key {| current_screen := "main"; selected_index := 0 |}
         KEY_UP (mgr_home, script []))
  = ({| current_screen := "main"; selected_index := 5 |}, true)
  /\ fst (fst (script_main_key
                 (fst (fst (script_main_key
                              {| current_screen := "main";
                                 selected_index := 0 |}
                              KEY_UP (mgr_home, script []))))
                 KEY_DOWN (mgr_home, script [])))
     = {| current_screen := "main"; selected_index := 0 |}.
Proof.
  split; [reflexivity|].
  destruct (main_menu_selection_wraps Script script_run script_log
              {| current_screen := "main"; selected_index := 0 |}
              KEY_UP (mgr_home, script []) (or_introl eq_refl))
    as (_ & _ & _ & _ & H).
  apply H. cbn. lia.
Defined.

Lemma main_menu_other_entries_do_nothing_witness :
  script_main_key {| current_screen := "main"; selected_index := 2 |} 10
                  (mgr_home, script [Completed 0 ""])
  = (({| current_screen := "main"; selected_index := 2 |}, true),
     (mgr_home, script [Completed 0 ""])).
Proof.
  apply (main_menu_other_entries_do_nothing Script script_run script_log);
    [reflexivity | cbn; lia..].
Defined.

Lemma device_list_selection_stays_valid_witness :
  exists ui',
    fst (script_device_key
           {| current_screen := "devices"; selected_index := 0 |} 10
           (mgr_off, script [Completed 0 ""; Completed 0 off_table]))
    = Some ui'
    /\ (0 <= selected_index ui')%Z.
Proof.
  destruct (device_list_selection_stays_valid Script script_run script_log
              {| current_screen := "devices"; selected_index := 0 |} 10
              mgr_off (script [Completed 0 ""; Completed 0 off_table]))
    as (ui' & E & H0 & _).
  - cbn. lia.
  - exists ui'. split; assumption.
Defined.

(** Without the precondition the handler can fail: with one device stored
    and the selection at -2, Enter raises [IndexError]. *)
Example device_list_negative_selection :
  fst (script_device_key
         {| current_screen := "devices"; selected_index := -2 |} 10
         (mgr_off, script []))
  = None.
Proof. reflexivity. Qed.
